(** * ResUNet++ polyp segmentation: the training and evaluation drivers

    A shallow embedding of the control flow of [train.py] ([main],
    [validation]) and of [eval.py] ([evaluate], [main]).  The neural
    network, the optimiser, the learning-rate scheduler, the data sets and
    the metric functions are collaborators of the drivers: they appear as
    section variables.  What the drivers themselves do (the resume block,
    the step counter, the best-loss bookkeeping, the checkpoint records and
    their file names, the metric accumulators and the names of the result
    images) is modelled as the Python code has it.

    Python floats are IEEE binary64 numbers, here the primitive floats of
    the Standard Library; Python integers are [Z]; a Python [dict] with
    string keys is a [gmap string]. *)

From Stdlib Require Import ZArith Floats Ascii.
From stdpp Require Import gmap strings pretty list.

Local Open Scope string_scope.
Local Open Scope list_scope.
Local Open Scope Z_scope.

(** ** Python values, exceptions and builtins *)

Module Py.

(** The exceptions the drivers can run into. *)
Inductive exn :=
| KeyError (key : string)
| TypeError
| ZeroDivisionError
| OverflowError
| ValueError (msg : string).

Inductive result (A : Type) :=
| Ok (a : A)
| Raise (e : exn).
Arguments Ok {A} a.
Arguments Raise {A} e.

(** A computation that writes a trace of events of type [E] (console
    output, files written) and either returns or raises.  The events
    written before an exception stay in the trace. *)
Definition M (E A : Type) : Type := (list E * result A)%type.

Definition ret {E A} (a : A) : M E A := ([], Ok a).
Definition raise {E A} (e : exn) : M E A := ([], Raise e).
Definition emit {E} (e : E) : M E unit := ([e], Ok tt).
Definition lift {E A} (r : result A) : M E A := ([], r).

Definition bind {E A B} (m : M E A) (k : A → M E B) : M E B :=
  match m with
  | (t, Ok a) => let '(t', r) := k a in (t ++ t', r)
  | (t, Raise e) => (t, Raise e)
  end.

Global Instance M_ret {E} : MRet (M E) := λ A, @ret E A.
Global Instance M_bind {E} : MBind (M E) := λ A B k m, @bind E A B m k.

(** [for x in xs: st = body(x, st)]: a Python [for] loop over a finite
    sequence, the local variables the body assigns passed as [st]. *)
Fixpoint for_ {E X S} (xs : list X) (body : X → S → M E S) (st : S) : M E S :=
  match xs with
  | [] => ret st
  | x :: xs' => bind (body x st) (for_ xs' body)
  end.

(** [enumerate(xs)] *)
Definition enumerate {X} (xs : list X) : list (Z * X) :=
  zip (seqZ 0 (Z.of_nat (length xs))) xs.

Section Values.
Context {Model Optim : Type}.

(** The values that occur in a checkpoint record and in the local
    variables of the drivers.  [VStateDict] is a [model.state_dict()],
    [VOptimState] an [optimizer.state_dict()]. *)
Inductive pyval :=
| VInt (z : Z)
| VFloat (f : float)
| VStr (s : string)
| VStateDict (m : Model)
| VOptimState (o : Optim).

(** [d[key]] on a dict. *)
Definition getitem (d : gmap string pyval) (key : string) : result pyval :=
  match d !! key with
  | Some v => Ok v
  | None => Raise (KeyError key)
  end.

(** [d.get(key, default)] *)
Definition get (d : gmap string pyval) (key : string) (default : pyval) : pyval :=
  match d !! key with
  | Some v => v
  | None => default
  end.

(** Python compares an [int] with a [float] by their exact values:
    [int_float_compare z f] is the comparison of [z] with the value of
    [f], [None] when [f] is NaN. *)
Definition int_float_compare (z : Z) (f : float) : option comparison :=
  match Prim2SF f with
  | S754_nan => None
  | S754_zero _ => Some (z ?= 0)
  | S754_infinity s => Some (if s then Gt else Lt)
  | S754_finite s m e =>
      let v := if s then Z.neg m else Z.pos m in
      Some (if 0 <=? e then z ?= v * 2 ^ e else z * 2 ^ (- e) ?= v)
  end.

Definition is_lt (c : option comparison) : bool :=
  match c with Some Lt => true | _ => false end.
Definition is_gt (c : option comparison) : bool :=
  match c with Some Gt => true | _ => false end.
Definition is_le (c : option comparison) : bool :=
  match c with Some (Lt | Eq) => true | _ => false end.
Definition is_ge (c : option comparison) : bool :=
  match c with Some (Gt | Eq) => true | _ => false end.

(** [a < b] *)
Definition py_lt (a b : pyval) : result bool :=
  match a, b with
  | VInt x, VInt y => Ok (x <? y)
  | VFloat x, VFloat y => Ok (PrimFloat.ltb x y)
  | VInt x, VFloat y => Ok (is_lt (int_float_compare x y))
  | VFloat x, VInt y => Ok (is_gt (int_float_compare y x))
  | VStr x, VStr y => Ok (String.ltb x y)
  | _, _ => Raise TypeError
  end.

(** [a <= b] *)
Definition py_le (a b : pyval) : result bool :=
  match a, b with
  | VInt x, VInt y => Ok (x <=? y)
  | VFloat x, VFloat y => Ok (PrimFloat.leb x y)
  | VInt x, VFloat y => Ok (is_le (int_float_compare x y))
  | VFloat x, VInt y => Ok (is_ge (int_float_compare y x))
  | VStr x, VStr y => Ok (String.leb x y)
  | _, _ => Raise TypeError
  end.

(** [min(a, b)]: the first argument unless the second is smaller. *)
Definition py_min (a b : pyval) : result pyval :=
  match py_lt b a with
  | Ok lt => Ok (if lt then b else a)
  | Raise e => Raise e
  end.

(** [float(z)] for an [int]: rounded to nearest, [OverflowError] when
    out of range. *)
Definition float_of_int (z : Z) : result float :=
  let f := SF2Prim (binary_normalize prec emax z 0 false) in
  if PrimFloat.is_infinity f then Raise OverflowError else Ok f.

(** The float a number is converted to in mixed arithmetic. *)
Definition as_float (a : pyval) : result float :=
  match a with
  | VInt z => float_of_int z
  | VFloat f => Ok f
  | _ => Raise TypeError
  end.

Definition float_op (op : float → float → float) (a b : pyval) : result pyval :=
  match as_float a with
  | Ok x => match as_float b with
            | Ok y => Ok (VFloat (op x y))
            | Raise e => Raise e
            end
  | Raise e => Raise e
  end.

(** [a + b] on numbers. *)
Definition py_add (a b : pyval) : result pyval :=
  match a, b with
  | VInt x, VInt y => Ok (VInt (x + y))
  | VInt _, VFloat _ | VFloat _, VInt _ | VFloat _, VFloat _ => float_op PrimFloat.add a b
  | _, _ => Raise TypeError
  end.

(** [a * b] on numbers. *)
Definition py_mul (a b : pyval) : result pyval :=
  match a, b with
  | VInt x, VInt y => Ok (VInt (x * y))
  | VInt _, VFloat _ | VFloat _, VInt _ | VFloat _, VFloat _ => float_op PrimFloat.mul a b
  | _, _ => Raise TypeError
  end.

Definition is_zero (a : pyval) : bool :=
  match a with
  | VInt z => z =? 0
  | VFloat f => PrimFloat.eqb f 0%float
  | _ => false
  end.

(** [a / b] on numbers: true division, which raises on a zero divisor
    of either type.  (For two [int]s Python rounds the exact quotient;
    that is the quotient of the two floats whenever both convert
    exactly.) *)
Definition py_truediv (a b : pyval) : result pyval :=
  match a, b with
  | (VInt _ | VFloat _), (VInt _ | VFloat _) =>
      if is_zero b then Raise ZeroDivisionError else float_op PrimFloat.div a b
  | _, _ => Raise TypeError
  end.

(** [a % b] on [int]s: the remainder has the sign of the divisor, as
    [Z.modulo] has. *)
Definition py_mod (a b : Z) : result Z :=
  if b =? 0 then Raise ZeroDivisionError else Ok (a mod b).

(** [range(a, b)] with [a] a value read from a dict. *)
Definition py_range (a : pyval) (b : Z) : result (list Z) :=
  match a with
  | VInt z => Ok (seqZ z (b - z))
  | _ => Raise TypeError
  end.

(** An [int] or a [float]. *)
Definition is_numeric (a : pyval) : bool :=
  match a with
  | VInt _ | VFloat _ => true
  | _ => false
  end.

(** An [int] or a [float] other than NaN. *)
Definition is_number (a : pyval) : bool :=
  match a with
  | VInt _ => true
  | VFloat f => negb (PrimFloat.is_nan f)
  | _ => false
  end.
End Values.
Global Arguments pyval : clear implicits.

(** [a.endswith("/")] *)
Fixpoint ends_with_slash (a : string) : bool :=
  match a with
  | "" => false
  | String c "" => if decide (c = "/"%char) then true else false
  | String _ a' => ends_with_slash a'
  end.

(** [os.path.join(a, b)] (POSIX): an absolute [b] discards [a]. *)
Definition path_join (a b : string) : string :=
  match b with
  | String "/" _ => b
  | _ => if decide (a = "") then b
         else if ends_with_slash a then a +:+ b
         else a +:+ "/" +:+ b
  end.

(** ["%04d" % z]: at least four characters, zeros after the sign. *)
Fixpoint zeros (n : nat) : string :=
  match n with
  | O => ""
  | S n' => String "0" (zeros n')
  end.
Definition zfill (width : nat) (digits : string) : string :=
  zeros (width - String.length digits) +:+ digits.
Definition fmt_04d (z : Z) : string :=
  if z <? 0 then "-" +:+ zfill 3 (pretty (Z.abs z)) else zfill 4 (pretty z).

(** The number a string of decimal digits denotes, as [int(s)] reads it. *)
Definition digit_value (c : ascii) : N := (N_of_ascii c - 48)%N.
Fixpoint decimal_value (s : string) : N :=
  match s with
  | "" => 0
  | String c s' =>
      digit_value c * 10 ^ N.of_nat (String.length s') + decimal_value s'
  end%N.

End Py.

(** ** The configuration

    [HParam]: the keys the two drivers read. *)
Record HParam := {
  checkpoints : string;
  log : string;
  RESNET_PLUS_PLUS : bool;
  lr : float;
  batch_size : Z;
  validation_interval : Z;
}.

(** ** train.py *)

Module Train.
Import Py.

(** [valid_metrics], the dict [validation] returns. *)
Record valid_metrics := { valid_loss : float; valid_acc : float }.

Section Driver.
Context {Model Optim Sched Batch : Type}.

(** The collaborators.  [ResUnet] and [ResUnetPlusPlus] are the freshly
    initialised networks, [train_batch] is one optimisation step on a
    batch (lines 152-171), [batch_loss], [batch_dice] and [batch_rows]
    are [criterion(model(inputs), labels).data.item()],
    [metrics.dice_coeff(outputs, labels)] and [outputs.size(0)];
    [tracker_avg] is the [avg] of a [MetricTracker] after the given
    updates; [scheduler_step] is [lr_scheduler.step(loss)], which may
    lower the learning rate held by the optimiser. *)
Variables ResUnet ResUnetPlusPlus : Model.
Variable Adam : Model → float → Optim.
Variable ReduceLROnPlateau : Optim → Sched.
Variable train_batch : Model → Optim → Batch → Model * Optim.
Variable batch_loss : Model → Batch → float.
Variable batch_dice : Model → Batch → float.
Variable batch_rows : Batch → Z.
Variable tracker_avg : list (float * Z) → float.
Variable scheduler_step : Sched → Optim → float → Sched * Optim.

Local Abbreviation pyval := (pyval Model Optim).
Local Abbreviation pydict := (gmap string pyval).

(** What the run prints and writes, in order: the directories made, the
    log writer opened, the lines printed (one constructor for each
    [print] of the file, [PrintEpoch] for the two lines at the start of
    an epoch, [PrintValidation] for the line [validation] prints), the
    call [lr_scheduler.step(loss)] and the call [torch.save(record,
    path)]. *)
Inductive event :=
| Makedirs (path : string)
| OpenWriter (path : string)
| PrintLoadingModel
| PrintLoading (path : string)
| PrintLoaded (path : string) (epoch : pyval)
| PrintNoCheckpoint (path : string)
| PrintEpoch (epoch last : Z)
| PrintValidation (loss acc : float)
| LrStep (loss : float)
| Save (record : pydict) (path : string)
| PrintSaved (path : string).

(** The variables the resume block assigns. *)
Record resumable := {
  start_epoch : pyval;
  r_best_loss : pyval;
  r_model : Model;
  r_optimizer : Optim;
}.

(** The variables the training loop assigns. *)
Record locals := {
  model : Model;
  optimizer : Optim;
  lr_scheduler : Sched;
  best_loss : pyval;
  step : Z;
}.

(** [model.load_state_dict(v)] and [optimizer.load_state_dict(v)]: the
    state of the object is replaced by the one read; anything but a state
    dict of the right kind is rejected. *)
Definition model_load_state_dict (model : Model) (v : pyval) : result Model :=
  match v with VStateDict m => Ok m | _ => Raise TypeError end.
Definition optimizer_load_state_dict (optimizer : Optim) (v : pyval) : result Optim :=
  match v with VOptimState o => Ok o | _ => Raise TypeError end.

(** Lines 70-86.  [fs] maps the path of each checkpoint file to the
    record [torch.load] reads from it.  When [train.py] is run as a
    script, [args.resume] is [resume]. *)
Definition resume_block (fs : gmap string pydict) (resume : string)
    (r : resumable) : M event resumable :=
  if decide (resume = "") then mret r
  else match fs !! resume with
       | Some checkpoint =>
           emit (PrintLoading resume);;
           start_epoch ← lift (getitem checkpoint "epoch");
           best_loss ← lift (getitem checkpoint "best_loss");
           sd ← lift (getitem checkpoint "state_dict");
           model ← lift (model_load_state_dict (r_model r) sd);
           od ← lift (getitem checkpoint "optimizer");
           optimizer ← lift (optimizer_load_state_dict (r_optimizer r) od);
           epoch ← lift (getitem checkpoint "epoch");
           emit (PrintLoaded resume epoch);;
           mret {| start_epoch := start_epoch; r_best_loss := best_loss;
                   r_model := model; r_optimizer := optimizer |}
       | None =>
           emit (PrintNoCheckpoint resume);;
           mret r
       end.

(** Lines 209-241.  The two trackers are fresh; the model is put in
    evaluation mode and back in training mode. *)
Definition measure (valid_loader : list Batch) (model : Model) : valid_metrics :=
  {| valid_loss :=
       tracker_avg ((λ d, (batch_loss model d, batch_rows d)) <$> valid_loader);
     valid_acc :=
       tracker_avg ((λ d, (batch_dice model d, batch_rows d)) <$> valid_loader) |}.
Definition validation (valid_loader : list Batch) (model : Model)
    : M event valid_metrics :=
  let vm := measure valid_loader model in
  emit (PrintValidation (valid_loss vm) (valid_acc vm));;
  mret vm.

Definition checkpoint_dir (hp : HParam) (name : string) : string :=
  checkpoints hp +:+ "/" +:+ name.

(** Lines 188-190. *)
Definition save_path (hp : HParam) (name : string) (step : Z) : string :=
  path_join (checkpoint_dir hp name)
            (name +:+ "_checkpoint_" +:+ fmt_04d step +:+ ".pt").

(** Lines 194-201. *)
Definition checkpoint_record (step epoch : Z) (model : Model)
    (best_loss : pyval) (optimizer : Optim) : pydict :=
  {[ "step" := VInt step;
     "epoch" := VInt epoch;
     "arch" := VStr "ResUnet";
     "state_dict" := VStateDict model;
     "best_loss" := best_loss;
     "optimizer" := VOptimState optimizer ]}.

(** Lines 183-204: the validation round. *)
Definition validation_round (hp : HParam) (name : string)
    (val_dataloader : list Batch) (epoch : Z) (st : locals) : M event locals :=
  vm ← validation val_dataloader (model st);
  emit (LrStep (valid_loss vm));;
  let '(sched, opt) := scheduler_step (lr_scheduler st) (optimizer st) (valid_loss vm) in
  let path := save_path hp name (step st) in
  best ← lift (py_min (VFloat (valid_loss vm)) (best_loss st));
  emit (Save (checkpoint_record (step st) epoch (model st) best opt) path);;
  emit (PrintSaved path);;
  mret {| model := model st; optimizer := opt; lr_scheduler := sched;
          best_loss := best; step := step st |}.

(** Lines 152-171: the optimisation step on one batch. *)
Definition optimise (data : Batch) (st : locals) : locals :=
  let '(m, o) := train_batch (model st) (optimizer st) data in
  {| model := m; optimizer := o; lr_scheduler := lr_scheduler st;
     best_loss := best_loss st; step := step st |}.

(** Line 206. *)
Definition next_step (st : locals) : locals :=
  {| model := model st; optimizer := optimizer st;
     lr_scheduler := lr_scheduler st; best_loss := best_loss st;
     step := step st + 1 |}.

(** Lines 149-206: the body of the loop over the batches. *)
Definition train_step (hp : HParam) (name : string)
    (val_dataloader : list Batch) (epoch : Z) (data : Batch) (st : locals)
    : M event locals :=
  let st := optimise data st in
  r ← lift (py_mod (step st) (validation_interval hp));
  st ← (if r =? 0 then validation_round hp name val_dataloader epoch st
        else mret st);
  mret (next_step st).

(** Lines 135-206: one epoch. *)
Definition train_epoch (hp : HParam) (name : string)
    (train_dataloader val_dataloader : list Batch) (num_epochs : Z)
    (epoch : Z) (st : locals) : M event locals :=
  emit (PrintEpoch epoch (num_epochs - 1));;
  for_ (enumerate train_dataloader)
       (λ '(idx, data), train_step hp name val_dataloader epoch data) st.

(** Lines 41-87: everything before the data is loaded. *)
Definition prologue (fs : gmap string pydict) (hp : HParam)
    (resume name : string) : M event (resumable * Sched) :=
  emit (Makedirs (checkpoint_dir hp name));;
  emit (Makedirs (log hp +:+ "/" +:+ name));;
  emit (OpenWriter (log hp +:+ "/" +:+ name));;
  model ← (if RESNET_PLUS_PLUS hp
           then emit PrintLoadingModel;; mret ResUnetPlusPlus
           else mret ResUnet);
  let optimizer := Adam model (lr hp) in
  let lr_scheduler := ReduceLROnPlateau optimizer in
  let best_loss := VInt 999 in
  let start_epoch := VInt 0 in
  r ← resume_block fs resume
        {| start_epoch := start_epoch; r_best_loss := best_loss;
           r_model := model; r_optimizer := optimizer |};
  mret (r, lr_scheduler).

(** [main(hp, num_epochs, resume, name)].  The two loaders are what the
    data sets yield in one pass.  The result is the local state when
    the loops end. *)
Definition main (fs : gmap string pydict)
    (train_dataloader val_dataloader : list Batch)
    (hp : HParam) (num_epochs : Z) (resume name : string) : M event locals :=
  '(r, lr_scheduler) ← prologue fs hp resume name;
  let step := 0 in
  epochs ← lift (py_range (start_epoch r) num_epochs);
  for_ epochs
       (train_epoch hp name train_dataloader val_dataloader num_epochs)
       {| model := r_model r; optimizer := r_optimizer r;
          lr_scheduler := lr_scheduler; best_loss := r_best_loss r;
          step := step |}.

(** *** The parts of a run, named *)

(** What lines 41-50 print and create. *)
Definition setup_trace (hp : HParam) (name : string) : list event :=
  [Makedirs (checkpoint_dir hp name); Makedirs (log hp +:+ "/" +:+ name);
   OpenWriter (log hp +:+ "/" +:+ name)]
  ++ (if RESNET_PLUS_PLUS hp then [PrintLoadingModel] else []).

(** The values of lines 48-68, before the resume block. *)
Definition fresh (hp : HParam) : resumable :=
  let model := if RESNET_PLUS_PLUS hp then ResUnetPlusPlus else ResUnet in
  {| start_epoch := VInt 0; r_best_loss := VInt 999;
     r_model := model; r_optimizer := Adam model (lr hp) |}.

(** The local state when the loops start (line 134). *)
Definition loop_entry (r : resumable) (lr_scheduler : Sched) : locals :=
  {| model := r_model r; optimizer := r_optimizer r;
     lr_scheduler := lr_scheduler; best_loss := r_best_loss r; step := 0 |}.

(** *** Reading a trace *)

(** An event of the prologue or of the start of an epoch: no validation,
    no scheduler step, nothing saved. *)
Definition quiet (e : event) : Prop :=
  match e with
  | PrintValidation _ _ | LrStep _ | Save _ _ | PrintSaved _ => False
  | _ => True
  end.

(** The [best_loss] and the [step] of the records saved, in order. *)
Definition saved_best_losses (t : list event) : list pyval :=
  omap (λ e, match e with Save record _ => record !! "best_loss" | _ => None end) t.
Definition saved_steps (t : list event) : list pyval :=
  omap (λ e, match e with Save record _ => record !! "step" | _ => None end) t.

(** The files written by [torch.save] and the epochs announced, in order. *)
Definition saved_paths (t : list event) : list string :=
  omap (λ e, match e with Save _ path => Some path | _ => None end) t.
Definition printed_epochs (t : list event) : list Z :=
  omap (λ e, match e with PrintEpoch epoch _ => Some epoch | _ => None end) t.

(** The validation losses handed to the scheduler, in order. *)
Definition validation_losses (t : list event) : list float :=
  omap (λ e, match e with LrStep loss => Some loss | _ => None end) t.

(** The successive values of [best_loss] when line 192 is run on the
    validation losses [vs], starting from [best]; it stops where [min]
    raises. *)
Fixpoint running_min (best : pyval) (vs : list float) : list pyval :=
  match vs with
  | [] => []
  | v :: vs' =>
      match py_min (VFloat v) best with
      | Ok best' => best' :: running_min best' vs'
      | Raise _ => []
      end
  end.

(** [l[i+1] <= l[i]] for all [i]. *)
Definition non_increasing (l : list pyval) : Prop :=
  ∀ (i : nat) x y, l !! i = Some x → l !! S i = Some y → py_le y x = Ok true.

(** [loop_trace hp name s t s']: [t] is what the batches with step
    counter [s], ..., [s' - 1] print and write when each step that the
    validation interval divides runs a validation round (the validation,
    its loss given to the scheduler, the checkpoint saved under the name
    of the step) and the other steps are silent. *)
Inductive loop_trace (hp : HParam) (name : string) : Z → list event → Z → Prop :=
| loop_done s :
    loop_trace hp name s [] s
| loop_epoch s t s' epoch last :
    loop_trace hp name s t s' →
    loop_trace hp name s (PrintEpoch epoch last :: t) s'
| loop_silent s t s' :
    s mod validation_interval hp ≠ 0 →
    loop_trace hp name (s + 1) t s' →
    loop_trace hp name s t s'
| loop_round s t s' loss acc record :
    s mod validation_interval hp = 0 →
    record !! "step" = Some (VInt s) →
    loop_trace hp name (s + 1) t s' →
    loop_trace hp name s
      (PrintValidation loss acc :: LrStep loss
         :: Save record (save_path hp name s)
         :: PrintSaved (save_path hp name s) :: t) s'.
End Driver.

End Train.

(** ** eval.py *)

Module Evaluate.
Import Py.

Section Driver.
Context {Model Optim Batch Image : Type}.

(** The collaborators.  [batch_size0] is [inputs.size(0)]; [dice_coeff]
    and [hd95_batch] are the two metric functions applied to the
    thresholded predictions of the model on a batch, which return
    scalars; [equal_count] is [(preds == labels).float().sum().item()],
    [numel] is [torch.numel(labels)]; [combined] is the picture built
    for sample [i] of a batch (lines 72-88). *)
Variables ResUnet ResUnetPlusPlus : Model.
Variable batch_size0 : Batch → Z.
Variable dice_coeff : Model → Batch → float.
Variable hd95_batch : Model → Batch → float.
Variable equal_count : Model → Batch → float.
Variable numel : Batch → Z.
Variable combined : Model → Batch → Z → Image.

Local Abbreviation pyval := (pyval Model Optim).
Local Abbreviation pydict := (gmap string pyval).

(** What the run prints and writes, in order; [PrintArch] is the line
    that names the architecture, [PrintResults] the three lines of the
    averages. *)
Inductive event :=
| Makedirs (path : string)
| Imwrite (path : string) (img : Image)
| PrintArch (plus_plus : bool)
| PrintLoading (path : string)
| PrintLoaded (path : string) (epoch : pyval)
| PrintResults (avg_dice avg_hd95 accuracy : pyval).

(** The accumulators of [evaluate]. *)
Record sums := {
  dice_sum : pyval;
  hd95_sum : pyval;
  pixel_correct : pyval;
  pixel_total : pyval;
  num_samples : pyval;
}.

(** Line 90. *)
Definition out_filename (result_folder : string) (batch_idx size0 i : Z) : string :=
  path_join result_folder ("sample_" +:+ pretty (batch_idx * size0 + i) +:+ ".png").

(** Lines 69-91: one picture for each sample of the batch. *)
Definition save_results (model : Model) (result_folder : string)
    (batch_idx : Z) (data : Batch) : M event unit :=
  for_ (seqZ 0 (batch_size0 data))
       (λ i _, emit (Imwrite (out_filename result_folder batch_idx (batch_size0 data) i)
                             (combined model data i)))
       tt.

(** Lines 41-91: the body of the loop over the batches. *)
Definition evaluate_batch (model : Model) (result_folder : string)
    (item : Z * Batch) (acc : sums) : M event sums :=
  let '(batch_idx, data) := item in
  let dice := VFloat (dice_coeff model data) in
  let hd95 := VFloat (hd95_batch model data) in
  let size0 := VInt (batch_size0 data) in
  d ← lift (py_mul dice size0);
  dice_sum ← lift (py_add (dice_sum acc) d);
  h ← lift (py_mul hd95 size0);
  hd95_sum ← lift (py_add (hd95_sum acc) h);
  num_samples ← lift (py_add (num_samples acc) size0);
  pixel_correct ← lift (py_add (pixel_correct acc) (VFloat (equal_count model data)));
  pixel_total ← lift (py_add (pixel_total acc) (VInt (numel data)));
  save_results model result_folder batch_idx data;;
  mret {| dice_sum := dice_sum; hd95_sum := hd95_sum;
          pixel_correct := pixel_correct; pixel_total := pixel_total;
          num_samples := num_samples |}.

(** [evaluate(model, test_loader, device, result_folder)] *)
Definition evaluate (model : Model) (test_loader : list Batch)
    (result_folder : string) : M event (pyval * pyval * pyval) :=
  let acc := {| dice_sum := VFloat 0; hd95_sum := VFloat 0;
                pixel_correct := VInt 0; pixel_total := VInt 0;
                num_samples := VInt 0 |} in
  emit (Makedirs result_folder);;
  acc ← for_ (enumerate test_loader) (evaluate_batch model result_folder) acc;
  avg_dice ← lift (py_truediv (dice_sum acc) (num_samples acc));
  avg_hd95 ← lift (py_truediv (hd95_sum acc) (num_samples acc));
  accuracy ← lift (py_truediv (pixel_correct acc) (pixel_total acc));
  mret (avg_dice, avg_hd95, accuracy).

(** Lines 122-129 of [main]: the checkpoint is read into the model. *)
Definition load_checkpoint (fs : gmap string pydict) (path : string)
    (model : Model) : M event Model :=
  match fs !! path with
  | Some checkpoint =>
      emit (PrintLoading path);;
      sd ← lift (getitem checkpoint "state_dict");
      model ← lift (Train.model_load_state_dict model sd);
      emit (PrintLoaded path (get checkpoint "epoch" (VStr "N/A")));;
      mret model
  | None => raise (ValueError ("Checkpoint not found: " +:+ path))
  end.

(** [main()], with the parsed arguments [--model] and [--output]. *)
Definition main (fs : gmap string pydict) (test_loader : list Batch)
    (hp : HParam) (model_path output : string) : M event (pyval * pyval * pyval) :=
  emit (PrintArch (RESNET_PLUS_PLUS hp));;
  let model := if RESNET_PLUS_PLUS hp then ResUnetPlusPlus else ResUnet in
  model ← load_checkpoint fs model_path model;
  '(avg_dice, avg_hd95, accuracy) ← evaluate model test_loader output;
  emit (PrintResults avg_dice avg_hd95 accuracy);;
  mret (avg_dice, avg_hd95, accuracy).

(** The names of the pictures written, in order. *)
Definition written_paths (t : list event) : list string :=
  omap (λ e, match e with Imwrite path _ => Some path | _ => None end) t.

(** The names line 90 gives to the samples of the batches [items], in
    order. *)
Definition sample_names (result_folder : string) (items : list (Z * Batch))
    : list string :=
  concat ((λ '(batch_idx, data),
             out_filename result_folder batch_idx (batch_size0 data)
               <$> seqZ 0 (batch_size0 data)) <$> items).

(** The number of samples and of mask elements of a test loader. *)
Definition samples (test_loader : list Batch) : Z :=
  foldr (λ d n, batch_size0 d + n) 0 test_loader.
Definition elements (test_loader : list Batch) : Z :=
  foldr (λ d n, numel d + n) 0 test_loader.

(** The files of the result folder after a run: the last picture
    written under each name. *)
Definition written (t : list event) : gmap string Image :=
  foldl (λ files e, match e with
                    | Imwrite path img => <[path := img]> files
                    | _ => files
                    end) ∅ t.
End Driver.

End Evaluate.

(** ** A scripted instance

    Collaborators small enough to run: the model is the number of
    optimisation steps made so far and the validation loss it yields is
    read from a script; the validation set has one batch, and the tracker
    averages one update to its value. *)

Module Scripted.
Import Py.

Definition train_batch (m o : Z) (data : unit) : Z * Z := (m + 1, o + 1).
Definition batch_loss (script : list float) (m : Z) (data : unit) : float :=
  nth (Z.to_nat (m - 1)) script 0.5%float.
Definition batch_dice (m : Z) (data : unit) : float := 1%float.
Definition batch_rows (data : unit) : Z := 1.
Definition tracker_avg (updates : list (float * Z)) : float :=
  match updates with
  | (v, _) :: _ => v
  | [] => 0%float
  end.
Definition scheduler_step (s : unit) (o : Z) (loss : float) : unit * Z := (s, o).

Definition hp (plus_plus : bool) (interval : Z) : HParam :=
  {| checkpoints := "checkpoints"; log := "logs";
     RESNET_PLUS_PLUS := plus_plus; lr := 0.0009765625%float;
     batch_size := 8; validation_interval := interval |}.

(** [train.py --name exp --epochs num_epochs --resume resume] on a
    training set of [batches] batches, the [k]-th optimisation step
    leading to the [k]-th loss of [script]. *)
Definition train (script : list float) (fs : gmap string (gmap string (pyval Z Z)))
    (batches : nat) (hp : HParam) (num_epochs : Z) (resume : string) :=
  Train.main 0 0 (λ _ _, 0) (λ _, tt) train_batch (batch_loss script)
             batch_dice batch_rows tracker_avg scheduler_step
             fs (replicate batches tt) [tt] hp num_epochs resume "exp".

(** A checkpoint written at step 40, in epoch 3. *)
Definition checkpoint_40 : gmap string (pyval Z Z) :=
  Train.checkpoint_record 40 3 41 (VFloat 0.25) 41.
Definition disk : gmap string (gmap string (pyval Z Z)) :=
  {[ "checkpoints/exp/exp_checkpoint_0040.pt" := checkpoint_40 ]}.

(** A record without the [epoch] key. *)
Definition checkpoint_no_epoch : gmap string (pyval Z Z) :=
  delete "epoch" checkpoint_40.

(** A test set of six samples in batches of four: the batches are the
    batch sizes. *)
Definition evaluate (test_loader : list Z) :=
  Evaluate.evaluate (Optim:=Z) (Model:=Z) (Image:=Z * Z)
    (λ size, size) (λ _ _, 1%float) (λ _ _, 2%float)
    (λ _ size, 3%float) (λ size, size * 16) (λ _ size i, (size, i))
    0 test_loader "results_resunet".
End Scripted.

(** ** Facts about the Python builtins *)

Module PyFacts.
Import Py.

(** *** The builtins on examples *)

Example fmt_04d_pads : fmt_04d 41 = "0041".
Proof. reflexivity. Qed.

Example fmt_04d_wide : fmt_04d 52000 = "52000".
Proof. reflexivity. Qed.

Example fmt_04d_negative : fmt_04d (-5) = "-005".
Proof. reflexivity. Qed.

Example path_join_relative :
  path_join "checkpoints/default" "default_checkpoint_52000.pt"
    = "checkpoints/default/default_checkpoint_52000.pt".
Proof. reflexivity. Qed.

Example path_join_absolute : path_join "checkpoints//tmp" "/tmp_x.pt" = "/tmp_x.pt".
Proof. reflexivity. Qed.

Example save_path_default :
  Train.save_path (Scripted.hp false 1000) "default" 52000
    = "checkpoints/default/default_checkpoint_52000.pt".
Proof. reflexivity. Qed.

Example min_keeps_int : py_min (VFloat 1000 : pyval Z Z) (VInt 999) = Ok (VInt 999).
Proof. reflexivity. Qed.

Example min_takes_nan : py_min (VFloat nan : pyval Z Z) (VInt 999) = Ok (VFloat nan).
Proof. reflexivity. Qed.

Example min_drops_nan : py_min (VFloat 0.5 : pyval Z Z) (VFloat nan) = Ok (VFloat 0.5).
Proof. reflexivity. Qed.

Example lt_int_float_exact :
  py_lt (VFloat 9007199254740992 : pyval Z Z) (VInt 9007199254740993) = Ok true.
Proof. reflexivity. Qed.

Example truediv_float_by_int_zero :
  py_truediv (VFloat 0 : pyval Z Z) (VInt 0) = Raise ZeroDivisionError.
Proof. reflexivity. Qed.

Example mul_float_by_int : py_mul (VFloat 0.5 : pyval Z Z) (VInt 4) = Ok (VFloat 2).
Proof. reflexivity. Qed.

Example mod_sign_of_divisor : py_mod (-7) 3 = Ok 2 ∧ py_mod 7 (-3) = Ok (-2).
Proof. split; reflexivity. Qed.

(** *** The monad *)

Section Monad.
Context {E : Type}.

Lemma bind_ok {A B} (t : list E) (a : A) (k : A → M E B) :
  bind (t, Ok a) k = (t ++ (k a).1, (k a).2).
Proof. unfold bind. by destruct (k a). Qed.

Lemma bind_raise {A B} (t : list E) (e : exn) (k : A → M E B) :
  bind (t, Raise e) k = (t, Raise e).
Proof. done. Qed.

Lemma bind_inv {A B} (m : M E A) (k : A → M E B) t res :
  bind m k = (t, res) →
  (∃ t1 a t2, m = (t1, Ok a) ∧ k a = (t2, res) ∧ t = t1 ++ t2)
  ∨ (∃ e, m = (t, Raise e) ∧ res = Raise e).
Proof.
  destruct m as [t1 [a|e]]; simpl.
  - destruct (k a) as [t2 r] eqn:Hk. intros [= <- <-]. left. by exists t1, a, t2.
  - intros [= <- <-]. right. by exists e.
Qed.

End Monad.

(** Runs the monad's operations in the goal. *)
Ltac run_m :=
  unfold mbind, M_bind, mret, M_ret, emit, lift, raise, ret;
  cbn [bind app fst snd].

Section Loops.
Context {E : Type}.

(** A postcondition [Q] on the trace and the result of a loop holds when
    it holds of every pass, of the empty run, and composes. *)
Lemma for_post {X S} (Q : S → list E → result S → Prop)
    (body : X → S → M E S) :
  (∀ st, Q st [] (Ok st)) →
  (∀ st t1 st1 t2 res, Q st t1 (Ok st1) → Q st1 t2 res → Q st (t1 ++ t2) res) →
  (∀ x st, Q st (body x st).1 (body x st).2) →
  ∀ xs st, Q st (for_ xs body st).1 (for_ xs body st).2.
Proof.
  intros Hnil Hseq Hbody xs. induction xs as [|x xs IH]; intros st.
  - apply Hnil.
  - cbn [for_]. specialize (Hbody x st).
    destruct (body x st) as [t1 [st1|e]].
    + rewrite bind_ok. eapply Hseq; [exact Hbody | apply IH].
    + exact Hbody.
Qed.

(** What a computation writes first stays first. *)
Lemma bind_trace {A B} (m : M E A) (k : A → M E B) :
  ∃ rest, (bind m k).1 = m.1 ++ rest.
Proof.
  destruct m as [t [a|e]]; cbn.
  - destruct (k a) as [t' r]. by exists t'.
  - exists []. by rewrite app_nil_r.
Qed.

Lemma for_trace {X S} (body : X → S → M E S) x xs st :
  ∃ rest, (for_ (x :: xs) body st).1 = (body x st).1 ++ rest.
Proof. cbn [for_]. apply bind_trace. Qed.
End Loops.

(** *** Comparisons *)

Lemma SFcompare_antisym x y :
  SFcompare y x = CompOpp <$> SFcompare x y.
Proof.
  destruct x as [sx|sx| |sx mx ex], y as [sy|sy| |sy my ey]; simpl;
    try destruct sx; try destruct sy; try reflexivity.
  - rewrite (Z.compare_antisym ey ex).
    destruct (ey ?= ex); simpl; try reflexivity.
    rewrite (Pos.compare_cont_antisym mx my Eq). simpl.
    by destruct (Pos.compare_cont Eq mx my).
  - rewrite (Z.compare_antisym ey ex).
    destruct (ey ?= ex); simpl; try reflexivity.
    by rewrite (Pos.compare_cont_antisym mx my Eq).
Qed.

Lemma SFcompare_refl x : x ≠ S754_nan → SFcompare x x = Some Eq.
Proof.
  destruct x as [s|s| |s m e]; simpl; try destruct s; try done;
    rewrite Z.compare_refl, Pos.compare_cont_refl; done.
Qed.

Lemma SFcompare_total x y :
  x ≠ S754_nan → y ≠ S754_nan → ∃ c, SFcompare x y = Some c.
Proof.
  destruct x as [sx|sx| |sx mx ex], y as [sy|sy| |sy my ey]; simpl; try done;
    eauto.
Qed.

Lemma not_nan_spec f : PrimFloat.is_nan f = false → Prim2SF f ≠ S754_nan.
Proof.
  unfold PrimFloat.is_nan. rewrite FloatAxioms.eqb_spec. unfold SFeqb.
  intros H Hnan. rewrite Hnan in H. done.
Qed.

Lemma float_lt_false_le x y :
  PrimFloat.is_nan x = false → PrimFloat.is_nan y = false →
  PrimFloat.ltb y x = false → PrimFloat.leb x y = true.
Proof.
  intros Hx%not_nan_spec Hy%not_nan_spec.
  rewrite FloatAxioms.ltb_spec, FloatAxioms.leb_spec. unfold SFltb, SFleb.
  rewrite (SFcompare_antisym (Prim2SF x) (Prim2SF y)).
  destruct (SFcompare_total _ _ Hx Hy) as [c ->]. by destruct c.
Qed.

Lemma float_le_refl x : PrimFloat.is_nan x = false → PrimFloat.leb x x = true.
Proof.
  intros Hx%not_nan_spec. rewrite FloatAxioms.leb_spec. unfold SFleb.
  by rewrite SFcompare_refl.
Qed.

Section Compare.
Context {Model Optim : Type}.
Implicit Types a b c : pyval Model Optim.

Lemma int_float_compare_total z f :
  PrimFloat.is_nan f = false → ∃ r, int_float_compare z f = Some r.
Proof.
  intros Hf%not_nan_spec. unfold int_float_compare.
  destruct (Prim2SF f); try done; eauto.
Qed.

(** On numbers, [not (b < a)] gives [a <= b]. *)
Lemma py_lt_false_le a b :
  is_number a = true → is_number b = true →
  py_lt b a = Ok false → py_le a b = Ok true.
Proof.
  destruct a as [x|x| | |], b as [y|y| | |]; simpl; try done; intros Ha Hb.
  - intros [= H]. f_equal. lia.
  - apply negb_true_iff in Hb.
    destruct (int_float_compare_total x y Hb) as [c ->]. by destruct c.
  - apply negb_true_iff in Ha.
    destruct (int_float_compare_total y x Ha) as [c ->]. by destruct c.
  - apply negb_true_iff in Ha, Hb. intros [= H]. f_equal.
    by apply float_lt_false_le.
Qed.

Lemma py_le_refl a : is_number a = true → py_le a a = Ok true.
Proof.
  destruct a as [x|x| | |]; simpl; try done; intros Ha.
  - f_equal. lia.
  - apply negb_true_iff in Ha. f_equal. by apply float_le_refl.
Qed.

Lemma py_lt_number a b :
  is_number a = true → is_number b = true → ∃ lt, py_lt a b = Ok lt.
Proof. destruct a, b; simpl; try done; eauto. Qed.

(** [min] of two numbers is one of them, a number below the second. *)
Lemma py_min_number a b :
  is_number a = true → is_number b = true →
  ∃ c, py_min a b = Ok c ∧ is_number c = true ∧ py_le c b = Ok true.
Proof.
  intros Ha Hb. unfold py_min.
  destruct (py_lt_number b a Hb Ha) as [[] Hlt]; rewrite Hlt.
  - exists b. auto using py_le_refl.
  - exists a. auto using py_lt_false_le.
Qed.

(** [min(v, z)] for a [float] and an [int]. *)
Lemma py_min_int_cases (v : float) (z : Z) (best : pyval Model Optim) :
  py_min (VFloat v) (VInt z) = Ok best →
  (py_le (VFloat v : pyval Model Optim) (VInt z) = Ok true → best = VFloat v)
  ∧ (py_lt (VInt z : pyval Model Optim) (VFloat v) = Ok true → best = VInt z).
Proof.
  unfold py_min. cbn.
  destruct (int_float_compare z v) as [[]|]; cbn; intros [= <-]; split; done.
Qed.
End Compare.

End PyFacts.

(** ** Facts about train.py *)

Module TrainFacts.
Import Py PyFacts Train.

Section Driver.
Context {Model Optim Sched Batch : Type}.
Variables ResUnet ResUnetPlusPlus : Model.
Variable Adam : Model → float → Optim.
Variable ReduceLROnPlateau : Optim → Sched.
Variable train_batch : Model → Optim → Batch → Model * Optim.
Variable batch_loss : Model → Batch → float.
Variable batch_dice : Model → Batch → float.
Variable batch_rows : Batch → Z.
Variable tracker_avg : list (float * Z) → float.
Variable scheduler_step : Sched → Optim → float → Sched * Optim.

Local Abbreviation pyval := (pyval Model Optim).
Local Abbreviation pydict := (gmap string pyval).
Local Abbreviation event := (@event Model Optim).
Local Abbreviation locals := (@locals Model Optim Sched).
Local Abbreviation measure := (measure batch_loss batch_dice batch_rows tracker_avg).
Local Abbreviation optimise := (optimise train_batch).
Local Abbreviation validation_round :=
  (validation_round batch_loss batch_dice batch_rows tracker_avg scheduler_step).
Local Abbreviation train_step :=
  (train_step train_batch batch_loss batch_dice batch_rows tracker_avg scheduler_step).
Local Abbreviation train_epoch :=
  (train_epoch train_batch batch_loss batch_dice batch_rows tracker_avg scheduler_step).
Local Abbreviation prologue :=
  (prologue (Sched:=Sched) ResUnet ResUnetPlusPlus Adam ReduceLROnPlateau).
Local Abbreviation main :=
  (main ResUnet ResUnetPlusPlus Adam ReduceLROnPlateau train_batch batch_loss
        batch_dice batch_rows tracker_avg scheduler_step).

(** *** One pass of the loop, case by case *)

(** The state a validation round leaves when [min] returns [best]. *)
Lemma validation_round_eq hp name val epoch (st : locals) :
  let vm := measure val (model st) in
  let so := scheduler_step (lr_scheduler st) (optimizer st) (valid_loss vm) in
  validation_round hp name val epoch st =
    match py_min (VFloat (valid_loss vm)) (best_loss st) with
    | Ok best =>
        ([PrintValidation (valid_loss vm) (valid_acc vm); LrStep (valid_loss vm);
          Save (checkpoint_record (step st) epoch (model st) best so.2)
               (save_path hp name (step st));
          PrintSaved (save_path hp name (step st))],
         Ok {| model := model st; optimizer := so.2; lr_scheduler := so.1;
               best_loss := best; step := step st |})
    | Raise e =>
        ([PrintValidation (valid_loss vm) (valid_acc vm); LrStep (valid_loss vm)],
         Raise e)
    end.
Proof.
  intros vm so. subst vm so. unfold Train.validation_round, Train.validation.
  run_m. destruct (scheduler_step _ _ _) as [sched opt].
  by destruct (py_min _ _).
Qed.

Lemma train_step_eq hp name val epoch data (st : locals) :
  train_step hp name val epoch data st =
    let st1 := optimise data st in
    if validation_interval hp =? 0 then ([], Raise ZeroDivisionError)
    else if step st1 mod validation_interval hp =? 0 then
      match validation_round hp name val epoch st1 with
      | (t, Ok st2) => (t, Ok (next_step st2))
      | (t, Raise e) => (t, Raise e)
      end
    else ([], Ok (next_step st1)).
Proof.
  unfold Train.train_step, py_mod. cbn zeta.
  destruct (validation_interval hp =? 0); [done|].
  run_m. destruct (_ mod _ =? 0); [|done].
  destruct (validation_round _ _ _ _ _) as [t [st2|e]]; [|done].
  cbn. by rewrite app_nil_r.
Qed.

Lemma optimise_step data (st : locals) : step (optimise data st) = step st.
Proof. unfold Train.optimise. by destruct (train_batch _ _ _). Qed.

Lemma optimise_best_loss data (st : locals) :
  best_loss (optimise data st) = best_loss st.
Proof. unfold Train.optimise. by destruct (train_batch _ _ _). Qed.

Local Abbreviation fresh := (fresh ResUnet ResUnetPlusPlus Adam).
Local Abbreviation setup_trace := (setup_trace (Model:=Model) (Optim:=Optim)).
Local Abbreviation quiet := (quiet (Model:=Model) (Optim:=Optim)).

(** The four ways a pass of the loop over the batches can go. *)
Lemma train_step_outcome hp name val epoch data (st : locals) :
  let st1 := optimise data st in
  let vm := measure val (model st1) in
  let so := scheduler_step (lr_scheduler st1) (optimizer st1) (valid_loss vm) in
  let round := [PrintValidation (valid_loss vm) (valid_acc vm);
                LrStep (valid_loss vm)] in
  (validation_interval hp = 0 ∧
   train_step hp name val epoch data st = ([], Raise ZeroDivisionError))
  ∨ (validation_interval hp ≠ 0 ∧ step st mod validation_interval hp ≠ 0 ∧
     train_step hp name val epoch data st = ([], Ok (next_step st1)))
  ∨ (validation_interval hp ≠ 0 ∧ step st mod validation_interval hp = 0 ∧
     ∃ best, py_min (VFloat (valid_loss vm)) (best_loss st) = Ok best ∧
       train_step hp name val epoch data st =
         (round ++ [Save (checkpoint_record (step st) epoch (model st1) best so.2)
                         (save_path hp name (step st));
                    PrintSaved (save_path hp name (step st))],
          Ok {| model := model st1; optimizer := so.2; lr_scheduler := so.1;
                best_loss := best; step := step st + 1 |}))
  ∨ (validation_interval hp ≠ 0 ∧ step st mod validation_interval hp = 0 ∧
     ∃ e, py_min (VFloat (valid_loss vm)) (best_loss st) = Raise e ∧
       train_step hp name val epoch data st = (round, Raise e)).
Proof.
  intros st1 vm so round. rewrite train_step_eq. cbv zeta. fold st1.
  destruct (Z.eqb_spec (validation_interval hp) 0) as [Hvi|Hvi]; [by left|].
  right. rewrite (optimise_step data st : step st1 = step st).
  destruct (Z.eqb_spec (step st mod validation_interval hp) 0) as [Hm|Hm];
    [|by left].
  right. rewrite validation_round_eq. fold vm. fold so.
  rewrite (optimise_best_loss data st : best_loss st1 = best_loss st).
  rewrite (optimise_step data st : step st1 = step st).
  destruct (py_min (VFloat (valid_loss vm)) (best_loss st)) as [best|e] eqn:Hmin.
  - left. repeat split; try done. by exists best.
  - right. repeat split; try done. by exists e.
Qed.

(** *** The loops *)

(** A postcondition that holds of the empty run, of the line printed
    when an epoch starts and of every pass over a batch, and that
    composes, holds of the loops. *)
Lemma loops_post (Q : locals → list event → result locals → Prop)
    hp name train val num_epochs :
  (∀ st, Q st [] (Ok st)) →
  (∀ st t1 st1 t2 res, Q st t1 (Ok st1) → Q st1 t2 res → Q st (t1 ++ t2) res) →
  (∀ st epoch last, Q st [PrintEpoch epoch last] (Ok st)) →
  (∀ epoch data st, Q st (train_step hp name val epoch data st).1
                         (train_step hp name val epoch data st).2) →
  ∀ epochs st,
    Q st (for_ epochs (train_epoch hp name train val num_epochs) st).1
         (for_ epochs (train_epoch hp name train val num_epochs) st).2.
Proof.
  intros Hnil Hseq Hepoch Hstep. apply for_post; [done..|].
  intros epoch st. unfold Train.train_epoch. run_m.
  destruct (for_ _ _ st) as [t res] eqn:Hfor. cbn [fst snd].
  apply (Hseq st [PrintEpoch epoch (num_epochs - 1)] st t res); [done|].
  pose proof (for_post Q
    (λ item : Z * Batch, let '(idx, data) := item in
                         train_step hp name val epoch data) Hnil Hseq) as Hin.
  assert (Hitem : ∀ (x : Z * Batch) st,
    Q st ((let '(idx, data) := x in train_step hp name val epoch data) st).1
         ((let '(idx, data) := x in train_step hp name val epoch data) st).2).
  { intros [idx data] st'. apply Hstep. }
  specialize (Hin Hitem (enumerate train) st).
  by rewrite Hfor in Hin.
Qed.

(** *** The prologue *)

Lemma resume_block_fresh (fs : gmap string pydict) r :
  resume_block fs "" r = ([], Ok r).
Proof. done. Qed.

Lemma resume_block_missing (fs : gmap string pydict) resume r :
  resume ≠ "" → fs !! resume = None →
  resume_block fs resume r = ([PrintNoCheckpoint resume], Ok r).
Proof.
  intros Hne Hfs. unfold Train.resume_block. rewrite Hfs.
  by destruct (decide (resume = "")).
Qed.

Lemma resume_block_loaded (fs : gmap string pydict) resume r ck e b m o :
  resume ≠ "" → fs !! resume = Some ck →
  ck !! "epoch" = Some e → ck !! "best_loss" = Some b →
  ck !! "state_dict" = Some (VStateDict m) →
  ck !! "optimizer" = Some (VOptimState o) →
  resume_block fs resume r =
    ([PrintLoading resume; PrintLoaded resume e],
     Ok {| start_epoch := e; r_best_loss := b; r_model := m; r_optimizer := o |}).
Proof.
  intros Hne Hfs He Hb Hm Ho. unfold Train.resume_block. rewrite Hfs.
  destruct (decide (resume = "")); [done|].
  unfold getitem. rewrite He, Hb, Hm, Ho. done.
Qed.

Lemma resume_block_no_epoch (fs : gmap string pydict) resume r ck :
  resume ≠ "" → fs !! resume = Some ck → ck !! "epoch" = None →
  resume_block fs resume r = ([PrintLoading resume], Raise (KeyError "epoch")).
Proof.
  intros Hne Hfs He. unfold Train.resume_block. rewrite Hfs.
  destruct (decide (resume = "")); [done|].
  unfold getitem. by rewrite He.
Qed.

(** What a resume block that returns has done. *)
Lemma resume_block_inv (fs : gmap string pydict) resume r t r' :
  resume_block fs resume r = (t, Ok r') →
  (r' = r ∧ (resume = "" ∨ fs !! resume = None))
  ∨ (∃ ck, resume ≠ "" ∧ fs !! resume = Some ck ∧
           ck !! "epoch" = Some (start_epoch r') ∧
           ck !! "best_loss" = Some (r_best_loss r') ∧
           ck !! "state_dict" = Some (VStateDict (r_model r')) ∧
           ck !! "optimizer" = Some (VOptimState (r_optimizer r'))).
Proof.
  unfold Train.resume_block. destruct (decide (resume = "")) as [->|Hne].
  { intros [= <- <-]. left. auto. }
  destruct (fs !! resume) as [ck|] eqn:Hfs.
  2:{ intros [= <- <-]. left. auto. }
  unfold getitem.
  destruct (ck !! "epoch") as [e|] eqn:He; [|done].
  destruct (ck !! "best_loss") as [b|] eqn:Hb; [|done].
  destruct (ck !! "state_dict") as [[| | |m|]|] eqn:Hm; try done.
  destruct (ck !! "optimizer") as [[| | | |o]|] eqn:Ho; try done.
  intros [= <- <-]. right. by exists ck.
Qed.

Lemma resume_block_quiet (fs : gmap string pydict) resume r :
  Forall quiet (resume_block fs resume r).1.
Proof.
  unfold Train.resume_block. destruct (decide (resume = "")); [by constructor|].
  destruct (fs !! resume) as [ck|]; [|by repeat constructor].
  unfold getitem.
  destruct (ck !! "epoch") as [e|]; [|by repeat constructor].
  destruct (ck !! "best_loss") as [b|]; [|by repeat constructor].
  destruct (ck !! "state_dict") as [[| | |m|]|]; try by repeat constructor.
  destruct (ck !! "optimizer") as [[| | | |o]|]; by repeat constructor.
Qed.

Lemma prologue_eq (fs : gmap string pydict) hp resume name :
  prologue fs hp resume name =
    match resume_block fs resume (fresh hp) with
    | (t, Ok r) =>
        (setup_trace hp name ++ t,
         Ok (r, ReduceLROnPlateau (r_optimizer (fresh hp))))
    | (t, Raise e) => (setup_trace hp name ++ t, Raise e)
    end.
Proof.
  unfold Train.prologue, Train.setup_trace, Train.fresh. run_m.
  destruct (RESNET_PLUS_PLUS hp); run_m;
    destruct (resume_block _ _ _) as [t [r|e]]; cbn; by rewrite ?app_nil_r.
Qed.

Lemma setup_trace_quiet hp name : Forall quiet (setup_trace hp name).
Proof.
  unfold Train.setup_trace. destruct (RESNET_PLUS_PLUS hp); by repeat constructor.
Qed.

Lemma prologue_quiet (fs : gmap string pydict) hp resume name :
  Forall quiet (prologue fs hp resume name).1.
Proof.
  rewrite prologue_eq. pose proof (resume_block_quiet fs resume (fresh hp)) as H.
  destruct (resume_block _ _ _) as [t [r|e]]; cbn [fst snd] in *;
    apply Forall_app; auto using setup_trace_quiet.
Qed.

Lemma main_eq (fs : gmap string pydict) train val hp num_epochs resume name :
  main fs train val hp num_epochs resume name =
    match prologue fs hp resume name with
    | (t0, Ok (r, sched)) =>
        match py_range (start_epoch r) num_epochs with
        | Ok epochs =>
            let run := for_ epochs (train_epoch hp name train val num_epochs)
                            (loop_entry r sched) in
            (t0 ++ run.1, run.2)
        | Raise e => (t0, Raise e)
        end
    | (t0, Raise e) => (t0, Raise e)
    end.
Proof.
  unfold Train.main. run_m.
  destruct (prologue _ _ _ _) as [t0 [[r sched]|e]]; [|done].
  unfold Train.loop_entry.
  destruct (py_range (start_epoch r) num_epochs) as [epochs|e] eqn:Hrange;
    cbn [bind app fst snd]; rewrite ?Hrange.
  - by destruct (for_ _ _ _).
  - by rewrite app_nil_r.
Qed.

Local Abbreviation loop_trace := (loop_trace (Model:=Model) (Optim:=Optim)).
Local Abbreviation loop_entry := (loop_entry (Model:=Model) (Optim:=Optim) (Sched:=Sched)).

(** *** The fields of a saved record *)

Lemma checkpoint_record_step s e m (b : pyval) o :
  checkpoint_record s e m b o !! "step" = Some (VInt s).
Proof. done. Qed.

Lemma checkpoint_record_arch s e m (b : pyval) o :
  checkpoint_record s e m b o !! "arch" = Some (VStr "ResUnet").
Proof. done. Qed.

Lemma checkpoint_record_best_loss s e m (b : pyval) o :
  checkpoint_record s e m b o !! "best_loss" = Some b.
Proof. done. Qed.

(** *** Validation rounds and steps *)

Lemma loop_trace_app hp name s1 t1 s2 t2 s3 :
  loop_trace hp name s1 t1 s2 → loop_trace hp name s2 t2 s3 →
  loop_trace hp name s1 (t1 ++ t2) s3.
Proof.
  induction 1 as [s|s t s' epoch last _ IH|s t s' Hm _ IH
                  |s t s' loss acc record Hm Hrec _ IH]; intros H2; cbn.
  - done.
  - apply loop_epoch; auto.
  - apply loop_silent; auto.
  - apply loop_round; auto.
Qed.

Lemma py_min_numeric v (b : pyval) :
  is_numeric b = true →
  ∃ best, py_min (VFloat v) b = Ok best ∧ is_numeric best = true.
Proof.
  destruct b as [z|f| | |]; try done; intros _; unfold py_min; cbn.
  - destruct (is_lt _); eauto.
  - destruct (PrimFloat.ltb _ _); eauto.
Qed.

(** With a validation interval other than zero and a [best_loss] that is
    an [int] or a [float], the loops run to their end, and each step that
    the interval divides, and no other, runs a validation round. *)
Lemma loops_complete hp name train val num_epochs epochs (st : locals) :
  validation_interval hp ≠ 0 → is_numeric (best_loss st) = true →
  ∃ t st', for_ epochs (train_epoch hp name train val num_epochs) st = (t, Ok st')
           ∧ is_numeric (best_loss st') = true
           ∧ loop_trace hp name (step st) t (step st').
Proof.
  intros Hvi Hnum.
  pose (Q := λ (st : locals) (t : list event) (res : result locals),
    is_numeric (best_loss st) = true →
    ∃ st', res = Ok st' ∧ is_numeric (best_loss st') = true
           ∧ loop_trace hp name (step st) t (step st')).
  assert (HQ : Q st (for_ epochs (train_epoch hp name train val num_epochs) st).1
                    (for_ epochs (train_epoch hp name train val num_epochs) st).2).
  { apply loops_post; unfold Q; clear Q st Hnum.
    - intros st Hnum. exists st. repeat split; [done|constructor].
    - intros st t1 st1 t2 res H1 H2 Hnum.
      destruct (H1 Hnum) as (st1' & [= <-] & Hnum1 & Ht1).
      destruct (H2 Hnum1) as (st2 & -> & Hnum2 & Ht2).
      exists st2. eauto using loop_trace_app.
    - intros st epoch last Hnum. exists st.
      repeat split; [done|]. apply loop_epoch, loop_done.
    - intros epoch data st Hnum.
      destruct (train_step_outcome hp name val epoch data st)
        as [[Hz _]|[(_ & Hm & ->)|[(_ & Hm & best & Hmin & ->)
                                  |(_ & Hm & e & Hmin & _)]]].
      + done.
      + eexists. split; [done|]. cbn. rewrite optimise_best_loss, optimise_step.
        split; [done|]. apply loop_silent, loop_done. done.
      + eexists. split; [done|]. cbn.
        destruct (py_min_numeric
          (valid_loss (measure val (model (optimise data st)))) _ Hnum)
          as (best' & Hmin' & Hbest).
        rewrite Hmin in Hmin'. injection Hmin' as <-. split; [done|].
        apply loop_round; [done|apply checkpoint_record_step|apply loop_done].
      + destruct (py_min_numeric
          (valid_loss (measure val (model (optimise data st)))) _ Hnum)
          as (best' & Hmin' & _).
        rewrite Hmin in Hmin'. done. }
  destruct (for_ _ _ st) as [t res]. destruct (HQ Hnum) as (st' & Hres & H).
  cbn in Hres. subst res. by exists t, st'.
Qed.

(** The step counter grows by one with each batch. *)
Lemma batches_count hp name val epoch (items : list (Z * Batch)) (st : locals) t st' :
  for_ items (λ '(idx, data), train_step hp name val epoch data) st = (t, Ok st') →
  step st' = step st + Z.of_nat (length items).
Proof.
  revert st t. induction items as [|[idx data] items IH]; intros st t; cbn [for_].
  - intros [= <- <-]. cbn. lia.
  - intros [(t1 & st1 & t2 & Hstep & Hrest & _)|(e & _ & [=])]%bind_inv.
    apply IH in Hrest. rewrite Hrest. clear Hrest IH.
    assert (step st1 = step st + 1) as ->; [|cbn [length]; lia].
    destruct (train_step_outcome hp name val epoch data st)
      as [[_ H]|[(_ & _ & H)|[(_ & _ & best & _ & H)|(_ & _ & e & _ & H)]]];
      rewrite H in Hstep; try done; injection Hstep as _ <-; cbn;
      by rewrite ?optimise_step.
Qed.

Lemma epochs_count hp name train val num_epochs epochs (st : locals) t st' :
  for_ epochs (train_epoch hp name train val num_epochs) st = (t, Ok st') →
  step st' = step st + Z.of_nat (length epochs) * Z.of_nat (length train).
Proof.
  revert st t. induction epochs as [|epoch epochs IH]; intros st t; cbn [for_].
  - intros [= <- <-]. cbn. lia.
  - intros [(t1 & st1 & t2 & Hep & Hrest & _)|(e & _ & [=])]%bind_inv.
    apply IH in Hrest. rewrite Hrest. clear Hrest IH.
    unfold Train.train_epoch in Hep. revert Hep. run_m.
    destruct (for_ _ _ st) as [t' res] eqn:Hfor. intros [= _ ->].
    apply batches_count in Hfor. rewrite Hfor. unfold enumerate.
    rewrite length_zip_with, length_seqZ. cbn [length]. lia.
Qed.

(** The first batch of a run the validation interval of which is not
    zero: its validation round is the first thing the loops do after
    the line of the epoch. *)
Lemma first_round (fs : gmap string pydict) train val hp num_epochs resume name
    r sched e d ds best :
  validation_interval hp ≠ 0 →
  (prologue fs hp resume name).2 = Ok (r, sched) →
  start_epoch r = VInt e → e < num_epochs → train = d :: ds →
  let st1 := optimise d (loop_entry r sched) in
  let vm := measure val (model st1) in
  let so := scheduler_step (lr_scheduler st1) (optimizer st1) (valid_loss vm) in
  py_min (VFloat (valid_loss vm)) (r_best_loss r) = Ok best →
  ∃ rest,
    (main fs train val hp num_epochs resume name).1
      = (prologue fs hp resume name).1
        ++ PrintEpoch e (num_epochs - 1)
        :: PrintValidation (valid_loss vm) (valid_acc vm)
        :: LrStep (valid_loss vm)
        :: Save (checkpoint_record 0 e (model st1) best so.2) (save_path hp name 0)
        :: PrintSaved (save_path hp name 0) :: rest.
Proof.
  intros Hvi Hpro He Hlt -> st1 vm so Hmin. rewrite main_eq.
  destruct (prologue fs hp resume name) as [t0 res]. cbn in Hpro. subst res.
  rewrite He. cbn [py_range fst]. rewrite seqZ_cons by lia.
  destruct (for_trace (train_epoch hp name (d :: ds) val num_epochs) e
              (seqZ (Z.succ e) (Z.pred (num_epochs - e))) (loop_entry r sched))
    as [rest1 ->].
  unfold Train.train_epoch at 1. run_m. unfold enumerate. cbn [length].
  rewrite seqZ_cons by lia. cbn [zip_with].
  match goal with |- context [for_ ((0, d) :: ?items) ?body ?st] =>
    destruct (for_trace body (0, d) items st) as [rest2 Hfor];
    destruct (for_ ((0, d) :: items) body st) as [t' res'] end.
  cbn [fst] in Hfor. subst t'. cbn [fst].
  destruct (train_step_outcome hp name val e d (loop_entry r sched))
    as [[Hz _]|[(_ & Hm & _)|[(_ & _ & best' & Hmin' & ->)|(_ & _ & e' & Hmin' & _)]]].
  - done.
  - by rewrite Z.mod_0_l in Hm.
  - fold st1 vm so in Hmin', Hmin |- *. cbn [best_loss Train.loop_entry] in Hmin'.
    rewrite Hmin in Hmin'. injection Hmin' as <-.
    exists (rest2 ++ rest1). cbn [fst step Train.loop_entry].
    by rewrite <-!app_assoc.
  - fold st1 vm in Hmin'. cbn [best_loss Train.loop_entry] in Hmin'.
    by rewrite Hmin in Hmin'.
Qed.

(** Every record saved names the architecture "ResUnet". *)
Lemma saved_arch (fs : gmap string pydict) train val hp num_epochs resume name :
  Forall (λ ev, match ev with
                | Save record _ => record !! "arch" = Some (VStr "ResUnet")
                | _ => True
                end)
         (main fs train val hp num_epochs resume name).1.
Proof.
  set (ok := λ ev : event, match ev with
                | Save record _ => record !! "arch" = Some (VStr "ResUnet")
                | _ => True
                end).
  assert (Hquiet : ∀ t, Forall quiet t → Forall ok t).
  { intros t H. eapply Forall_impl; [exact H|]. by intros []. }
  rewrite main_eq. pose proof (prologue_quiet fs hp resume name) as Hpro.
  destruct (prologue fs hp resume name) as [t0 [[r sched]|err]]; cbn [fst] in *;
    [|by auto].
  destruct (py_range _ _) as [epochs|err]; cbn [fst]; [|by auto].
  apply Forall_app. split; [by auto|].
  apply (loops_post (λ _ t _, Forall ok t)).
  - constructor.
  - intros _ t1 _ t2 _ H1 H2. apply Forall_app. done.
  - intros _ epoch last. by repeat constructor.
  - intros epoch data st.
    destruct (train_step_outcome hp name val epoch data st)
      as [[_ ->]|[(_ & _ & ->)|[(_ & _ & best & _ & ->)|(_ & _ & e & _ & ->)]]];
      cbn [fst]; repeat constructor.
Qed.

(** C4: whenever [step % validation_interval == 0] the loop runs a
    validation pass, hands the validation loss to the learning-rate
    scheduler and then saves a checkpoint in the file named after the
    experiment and the step; no checkpoint is saved at another step.
    The run is one whose validation interval is not zero and whose
    [best_loss] is an [int] or a [float], so that it reaches its end;
    [t] is what it prints and writes after the prologue. *)
Theorem validation_round_iff_interval_divides_step
    (fs : gmap string pydict) train val hp num_epochs resume name r sched e :
  validation_interval hp ≠ 0 →
  (prologue fs hp resume name).2 = Ok (r, sched) →
  start_epoch r = VInt e →
  is_numeric (r_best_loss r) = true →
  ∃ t st',
    main fs train val hp num_epochs resume name
      = ((prologue fs hp resume name).1 ++ t, Ok st')
    ∧ loop_trace hp name 0 t (step st')
    ∧ step st' = Z.max 0 (num_epochs - e) * Z.of_nat (length train).
Proof.
  intros Hvi Hpro He Hnum. rewrite main_eq.
  destruct (prologue fs hp resume name) as [t0 res]. cbn in Hpro. subst res.
  rewrite He. cbn [py_range fst].
  destruct (loops_complete hp name train val num_epochs
              (seqZ e (num_epochs - e)) (loop_entry r sched) Hvi Hnum)
    as (t & st' & Hrun & _ & Htrace).
  rewrite Hrun. exists t, st'. repeat split; [done|].
  apply epochs_count in Hrun. rewrite Hrun, length_seqZ. cbn. lia.
Qed.

(** C10: with [validation_interval >= 1] the first batch processed, at
    step 0, runs a validation pass and saves a checkpoint. *)
Theorem first_batch_validates_and_saves
    (fs : gmap string pydict) train val hp num_epochs resume name r sched e d ds :
  1 ≤ validation_interval hp →
  (prologue fs hp resume name).2 = Ok (r, sched) →
  start_epoch r = VInt e → e < num_epochs → train = d :: ds →
  is_numeric (r_best_loss r) = true →
  ∃ loss acc record rest,
    (main fs train val hp num_epochs resume name).1
      = (prologue fs hp resume name).1
        ++ PrintEpoch e (num_epochs - 1)
        :: PrintValidation loss acc :: LrStep loss
        :: Save record (save_path hp name 0)
        :: PrintSaved (save_path hp name 0) :: rest
    ∧ record !! "step" = Some (VInt 0).
Proof.
  intros Hvi Hpro He Hlt Htrain Hnum.
  destruct (py_min_numeric
    (valid_loss (measure val (model (optimise d (loop_entry r sched))))) _ Hnum)
    as (best & Hmin & _).
  destruct (first_round fs train val hp num_epochs resume name r sched e d ds best)
    as [rest Hmain]; try done; [lia|].
  rewrite Hmain. do 4 eexists. split; [done|]. apply checkpoint_record_step.
Qed.

(** C9: the [arch] field of every checkpoint record the training loop
    saves is the string "ResUnet", whichever model the configuration
    selects. *)
Theorem arch_field_is_ResUnet
    (fs : gmap string pydict) train val hp num_epochs resume name record path :
  Save record path ∈ (main fs train val hp num_epochs resume name).1 →
  record !! "arch" = Some (VStr "ResUnet").
Proof.
  intros Hin.
  exact (proj1 (Forall_forall _ _)
    (saved_arch fs train val hp num_epochs resume name) _ Hin).
Qed.

(** *** The best loss *)

Local Abbreviation saved_best_losses :=
  (saved_best_losses (Model:=Model) (Optim:=Optim)).
Local Abbreviation validation_losses :=
  (validation_losses (Model:=Model) (Optim:=Optim)).
Local Abbreviation running_min := (running_min (Model:=Model) (Optim:=Optim)).

Lemma running_min_app (b : pyval) vs1 vs2 :
  length (running_min b vs1) = length vs1 →
  running_min b (vs1 ++ vs2)
    = running_min b vs1
      ++ running_min (default b (last (running_min b vs1))) vs2.
Proof.
  revert b. induction vs1 as [|v vs1 IH]; intros b; cbn; [done|].
  destruct (py_min (VFloat v) b) as [b'|e]; cbn; [|done].
  intros [= Hlen]. rewrite (IH b' Hlen). f_equal. f_equal.
  rewrite last_cons. by destruct (last (running_min b' vs1)).
Qed.

(** Without NaN, each value is below the one before. *)
Lemma running_min_non_increasing (b : pyval) vs :
  is_number b = true → Forall (λ v, PrimFloat.is_nan v = false) vs →
  non_increasing (b :: running_min b vs).
Proof.
  intros Hb Hvs. revert b Hb.
  induction Hvs as [|v vs Hv _ IH]; intros b Hb; cbn.
  - intros [|i] x y; cbn; done.
  - destruct (py_min_number (VFloat v) b) as (c & -> & Hc & Hle); [|done|].
    { cbn. by rewrite Hv. }
    intros [|i] x y; cbn.
    + by intros [= <-] [= <-].
    + apply (IH c Hc i).
Qed.

Lemma quiet_saved_best_losses (t : list event) :
  Forall quiet t → saved_best_losses t = [] ∧ validation_losses t = [].
Proof.
  induction 1 as [|ev t Hev _ [IH1 IH2]]; [done|].
  unfold Train.saved_best_losses, Train.validation_losses in *. cbn.
  rewrite IH1, IH2. by destruct ev.
Qed.

(** Line 192 is the only assignment of [best_loss] in the loops. *)
Lemma loops_running_min hp name train val num_epochs epochs (st : locals) :
  let t := (for_ epochs (train_epoch hp name train val num_epochs) st).1 in
  saved_best_losses t = running_min (best_loss st) (validation_losses t).
Proof.
  pose (Q := λ (st : locals) (t : list event) (res : result locals),
    saved_best_losses t = running_min (best_loss st) (validation_losses t)
    ∧ ∀ st', res = Ok st' →
        length (saved_best_losses t) = length (validation_losses t)
        ∧ best_loss st' = default (best_loss st) (last (saved_best_losses t))).
  cut (Q st (for_ epochs (train_epoch hp name train val num_epochs) st).1
            (for_ epochs (train_epoch hp name train val num_epochs) st).2).
  { by intros [H _]. }
  apply loops_post; unfold Q; clear Q st.
  - intros st. split; [done|]. by intros st' [= <-].
  - intros st t1 st1 t2 res [H1 H1'] [H2 H2'].
    destruct (H1' st1 eq_refl) as [Hlen Hbest].
    unfold Train.saved_best_losses, Train.validation_losses in *.
    rewrite !omap_app. split.
    + rewrite running_min_app by (by rewrite <-H1).
      rewrite <-H1, <-Hbest. by f_equal.
    + intros st' Hres. destruct (H2' st' Hres) as [Hlen2 Hbest2].
      rewrite !length_app, Hlen, Hlen2. split; [done|].
      rewrite Hbest2, Hbest, last_app. by destruct (last (omap _ t2)).
  - intros st epoch last. split; [done|]. by intros st' [= <-].
  - intros epoch data st.
    destruct (train_step_outcome hp name val epoch data st)
      as [[_ ->]|[(_ & _ & ->)|[(_ & _ & best & Hmin & ->)|(_ & _ & e & Hmin & ->)]]];
      cbn [fst snd].
    + done.
    + split; [done|]. intros st' [= <-]. cbn. by rewrite optimise_best_loss.
    + unfold Train.saved_best_losses, Train.validation_losses.
      cbn -[py_min Train.checkpoint_record] in Hmin |- *.
      rewrite Hmin, checkpoint_record_best_loss. split; [done|].
      by intros st' [= <-].
    + unfold Train.saved_best_losses, Train.validation_losses.
      cbn -[py_min] in Hmin |- *. by rewrite Hmin.
Qed.

Lemma main_running_min (fs : gmap string pydict) train val hp num_epochs
    resume name r sched :
  (prologue fs hp resume name).2 = Ok (r, sched) →
  let t := (main fs train val hp num_epochs resume name).1 in
  saved_best_losses t = running_min (r_best_loss r) (validation_losses t).
Proof.
  intros Hpro. cbv zeta. rewrite main_eq.
  pose proof (prologue_quiet fs hp resume name) as Hquiet.
  destruct (prologue fs hp resume name) as [t0 res]. cbn in Hpro, Hquiet.
  subst res. destruct (quiet_saved_best_losses t0 Hquiet) as [Hs Hl].
  destruct (py_range _ _) as [epochs|e]; cbn [fst].
  - unfold Train.saved_best_losses, Train.validation_losses in *.
    rewrite !omap_app, Hs, Hl. cbn [app].
    apply (loops_running_min hp name train val num_epochs epochs
             (loop_entry r sched)).
  - by rewrite Hs, Hl.
Qed.

(** C3, amended: each [best_loss] saved is [min(validation loss, best
    loss before)], from the value the loops start with; when that value
    is a number other than NaN and no validation loss is NaN, the values
    saved are non-increasing, the first of them below the starting
    value. *)
Theorem best_loss_running_min_non_increasing
    (fs : gmap string pydict) train val hp num_epochs resume name r sched :
  (prologue fs hp resume name).2 = Ok (r, sched) →
  let t := (main fs train val hp num_epochs resume name).1 in
  saved_best_losses t = running_min (r_best_loss r) (validation_losses t)
  ∧ (is_number (r_best_loss r) = true →
     Forall (λ v, PrimFloat.is_nan v = false) (validation_losses t) →
     non_increasing (r_best_loss r :: saved_best_losses t)).
Proof.
  intros Hpro t. pose proof (main_running_min fs train val hp num_epochs
    resume name r sched Hpro) as Hrun. fold t in Hrun. split; [done|].
  intros Hnum Hnan. rewrite Hrun. by apply running_min_non_increasing.
Qed.

(** *** Resuming *)

(** C1, amended: in a run resumed from a checkpoint, whatever step [s]
    the record stores, the step counter starts again at 0 (the first
    validation round saves the record of step 0 under the name of step
    0) and [best_loss] is the persisted value [b] exactly: the first
    [best_loss] saved is [min(loss, b)]. *)
Theorem resume_keeps_best_loss_restarts_step
    (fs : gmap string pydict) train val hp num_epochs resume name
    ck s e b m o d ds :
  resume ≠ "" → fs !! resume = Some ck →
  ck !! "step" = Some (VInt s) →
  ck !! "epoch" = Some (VInt e) →
  ck !! "best_loss" = Some b → is_numeric b = true →
  ck !! "state_dict" = Some (VStateDict m) →
  ck !! "optimizer" = Some (VOptimState o) →
  validation_interval hp ≠ 0 → e < num_epochs → train = d :: ds →
  ∃ sched loss acc best m' o' rest,
    prologue fs hp resume name
      = (setup_trace hp name ++ [PrintLoading resume; PrintLoaded resume (VInt e)],
         Ok ({| start_epoch := VInt e; r_best_loss := b;
                r_model := m; r_optimizer := o |}, sched))
    ∧ (main fs train val hp num_epochs resume name).1
        = (prologue fs hp resume name).1
          ++ PrintEpoch e (num_epochs - 1)
          :: PrintValidation loss acc :: LrStep loss
          :: Save (checkpoint_record 0 e m' best o') (save_path hp name 0)
          :: PrintSaved (save_path hp name 0) :: rest
    ∧ py_min (VFloat loss) b = Ok best.
Proof.
  intros Hne Hfs _ He Hb Hnum Hm Ho Hvi Hlt Htrain.
  pose proof (prologue_eq fs hp resume name) as Hpro.
  rewrite (resume_block_loaded fs resume (fresh hp) ck (VInt e) b m o)
    in Hpro by done.
  set (r := {| start_epoch := VInt e; r_best_loss := b;
               r_model := m; r_optimizer := o |}) in *.
  set (sched := ReduceLROnPlateau (r_optimizer (fresh hp))) in *.
  destruct (py_min_numeric
    (valid_loss (measure val (model (optimise d (loop_entry r sched))))) b Hnum)
    as (best & Hmin & _).
  destruct (first_round fs train val hp num_epochs resume name r sched e d ds best)
    as [rest Hmain]; try done.
  { by rewrite Hpro. }
  exists sched. do 6 eexists. split; [exact Hpro|]. split; [exact Hmain|exact Hmin].
Qed.

(** C2, amended: with a resume path that is not empty and names no
    file, the run prints that no checkpoint was found and goes on as
    the run without a resume path does, from the fresh initial state:
    the same events after it, the same result, which is not an exception
    when the validation interval is not zero. *)
Theorem missing_checkpoint_starts_fresh
    (fs : gmap string pydict) train val hp num_epochs resume name :
  resume ≠ "" → fs !! resume = None →
  ∃ t res,
    main fs train val hp num_epochs "" name = (setup_trace hp name ++ t, res)
    ∧ main fs train val hp num_epochs resume name
        = (setup_trace hp name ++ PrintNoCheckpoint resume :: t, res)
    ∧ (validation_interval hp ≠ 0 → ∃ st, res = Ok st).
Proof.
  intros Hne Hfs. rewrite !main_eq, !prologue_eq.
  rewrite resume_block_fresh, (resume_block_missing fs resume) by done.
  cbn [py_range Train.fresh start_epoch].
  set (sched := ReduceLROnPlateau _).
  set (run := for_ _ _ _). exists run.1, run.2. rewrite app_nil_r.
  split; [done|]. split; [by rewrite <-app_assoc|].
  intros Hvi. subst run.
  destruct (loops_complete hp name train val num_epochs (seqZ 0 (num_epochs - 0))
              (loop_entry (fresh hp) sched) Hvi eq_refl) as (t & st' & -> & _).
  by exists st'.
Qed.

(** C8, amended: a run that is not resumed starts with [best_loss =
    999]; the first [best_loss] saved is [min(loss, 999)], which is the
    first validation loss when [loss <= 999] and 999 when [999 < loss]. *)
Theorem fresh_best_loss_is_999
    (fs : gmap string pydict) train val hp num_epochs name d ds :
  validation_interval hp ≠ 0 → 0 < num_epochs → train = d :: ds →
  ∃ sched loss acc best m' o' rest,
    prologue fs hp "" name = (setup_trace hp name, Ok (fresh hp, sched))
    ∧ r_best_loss (fresh hp) = VInt 999
    ∧ (main fs train val hp num_epochs "" name).1
        = setup_trace hp name
          ++ PrintEpoch 0 (num_epochs - 1)
          :: PrintValidation loss acc :: LrStep loss
          :: Save (checkpoint_record 0 0 m' best o') (save_path hp name 0)
          :: PrintSaved (save_path hp name 0) :: rest
    ∧ py_min (VFloat loss) (VInt 999) = Ok best
    ∧ (py_le (VFloat loss : pyval) (VInt 999) = Ok true → best = VFloat loss)
    ∧ (py_lt (VInt 999 : pyval) (VFloat loss) = Ok true → best = VInt 999).
Proof.
  intros Hvi Hlt Htrain.
  pose proof (prologue_eq fs hp "" name) as Hpro.
  rewrite resume_block_fresh, app_nil_r in Hpro.
  set (sched := ReduceLROnPlateau (r_optimizer (fresh hp))) in *.
  set (loss := valid_loss (measure val (model (optimise d (loop_entry (fresh hp) sched))))).
  destruct (py_min_numeric loss (VInt 999) eq_refl) as (best & Hmin & _).
  destruct (first_round fs train val hp num_epochs "" name (fresh hp) sched 0 d ds best)
    as [rest Hmain]; try done.
  { by rewrite Hpro. }
  rewrite Hpro in Hmain. cbn [fst] in Hmain.
  exists sched, loss. do 5 eexists. split; [exact Hpro|]. split; [done|].
  split; [exact Hmain|]. split; [exact Hmin|].
  by apply py_min_int_cases.
Qed.

(** *** The whole run, in closed form *)

Local Abbreviation saved_steps := (saved_steps (Model:=Model) (Optim:=Optim)).
Local Abbreviation saved_paths := (saved_paths (Model:=Model) (Optim:=Optim)).
Local Abbreviation printed_epochs := (printed_epochs (Model:=Model) (Optim:=Optim)).

(** The run of [main] from the prologue on, when it reaches its end. *)
Lemma main_run (fs : gmap string pydict) train val hp num_epochs resume name
    r sched e :
  validation_interval hp ≠ 0 →
  (prologue fs hp resume name).2 = Ok (r, sched) →
  start_epoch r = VInt e →
  is_numeric (r_best_loss r) = true →
  ∃ t st',
    main fs train val hp num_epochs resume name
      = ((prologue fs hp resume name).1 ++ t, Ok st')
    ∧ for_ (seqZ e (num_epochs - e)) (train_epoch hp name train val num_epochs)
           (loop_entry r sched) = (t, Ok st')
    ∧ loop_trace hp name 0 t (step st')
    ∧ step st' = Z.max 0 (num_epochs - e) * Z.of_nat (length train).
Proof.
  intros Hvi Hpro He Hnum. rewrite main_eq.
  destruct (prologue fs hp resume name) as [t0 res]. cbn in Hpro. subst res.
  rewrite He. cbn [py_range fst].
  destruct (loops_complete hp name train val num_epochs
              (seqZ e (num_epochs - e)) (loop_entry r sched) Hvi Hnum)
    as (t & st' & Hrun & _ & Htrace).
  rewrite Hrun. exists t, st'. repeat split; [done|].
  apply epochs_count in Hrun. rewrite Hrun, length_seqZ. cbn. lia.
Qed.

Lemma loop_trace_le hp name s t s' : loop_trace hp name s t s' → s ≤ s'.
Proof. induction 1; lia. Qed.

Lemma loop_trace_saved hp name s t s' :
  loop_trace hp name s t s' →
  saved_steps t
    = VInt <$> filter (λ k, k mod validation_interval hp = 0) (seqZ s (s' - s))
  ∧ saved_paths t
    = save_path hp name
        <$> filter (λ k, k mod validation_interval hp = 0) (seqZ s (s' - s)).
Proof.
  induction 1 as [s|s t s' epoch last _ IH|s t s' Hm Ht IH
                  |s t s' loss acc record Hm Hrec Ht IH].
  - by rewrite Z.sub_diag.
  - exact IH.
  - apply loop_trace_le in Ht. rewrite seqZ_cons by lia.
    rewrite filter_cons_False by done.
    by replace (Z.pred (s' - s)) with (s' - (s + 1)) by lia.
  - apply loop_trace_le in Ht. rewrite seqZ_cons by lia.
    rewrite filter_cons_True by done.
    replace (Z.pred (s' - s)) with (s' - (s + 1)) by lia.
    destruct IH as [IH1 IH2].
    unfold Train.saved_steps, Train.saved_paths in *. cbn.
    by rewrite Hrec, IH1, IH2.
Qed.

Lemma quiet_saved (t : list event) :
  Forall quiet t → saved_steps t = [] ∧ saved_paths t = [].
Proof.
  induction 1 as [|ev t Hev _ [IH1 IH2]]; [done|].
  unfold Train.saved_steps, Train.saved_paths in *. cbn.
  rewrite IH1, IH2. by destruct ev.
Qed.

(** X1: in a run that reaches its end, the checkpoints written are those of
    the steps [0 <= s < total] that the validation interval divides, in
    increasing order, each in the file named after its step; [total] is
    the number of batches processed. *)
Theorem checkpoints_at_multiples_of_interval
    (fs : gmap string pydict) train val hp num_epochs resume name r sched e :
  validation_interval hp ≠ 0 →
  (prologue fs hp resume name).2 = Ok (r, sched) →
  start_epoch r = VInt e →
  is_numeric (r_best_loss r) = true →
  let total := Z.max 0 (num_epochs - e) * Z.of_nat (length train) in
  let due := filter (λ k, k mod validation_interval hp = 0) (seqZ 0 total) in
  let t := (main fs train val hp num_epochs resume name).1 in
  saved_steps t = VInt <$> due ∧ saved_paths t = save_path hp name <$> due.
Proof.
  intros Hvi Hpro He Hnum total due t.
  destruct (main_run fs train val hp num_epochs resume name r sched e)
    as (t' & st' & Hmain & _ & Htrace & Hstep); try done.
  subst t. rewrite Hmain. cbn [fst].
  destruct (quiet_saved _ (prologue_quiet fs hp resume name)) as [Hq1 Hq2].
  destruct (loop_trace_saved _ _ _ _ _ Htrace) as [H1 H2].
  rewrite Hstep, Z.sub_0_r in H1, H2. fold total in H1, H2. fold due in H1, H2.
  unfold Train.saved_steps, Train.saved_paths in *.
  by rewrite !omap_app, Hq1, Hq2, H1, H2.
Qed.

(** The batches of an epoch announce no epoch. *)
Lemma batches_print_no_epoch hp name val epoch (items : list (Z * Batch))
    (st : locals) :
  printed_epochs
    (for_ items (λ item : Z * Batch,
                   let '(idx, data) := item in train_step hp name val epoch data)
          st).1 = [].
Proof.
  apply (for_post (λ _ t _, printed_epochs t = [])).
  - done.
  - intros _ t1 _ t2 _ H1 H2. unfold Train.printed_epochs in *.
    by rewrite omap_app, H1, H2.
  - intros [idx data] st'.
    destruct (train_step_outcome hp name val epoch data st')
      as [[_ ->]|[(_ & _ & ->)|[(_ & _ & best & _ & ->)|(_ & _ & e & _ & ->)]]];
      done.
Qed.

Lemma epochs_printed hp name train val num_epochs epochs (st : locals) t st' :
  for_ epochs (train_epoch hp name train val num_epochs) st = (t, Ok st') →
  printed_epochs t = epochs.
Proof.
  revert st t. induction epochs as [|epoch epochs IH]; intros st t; cbn [for_].
  - by intros [= <- <-].
  - intros [(t1 & st1 & t2 & Hep & Hrest & ->)|(e & _ & [=])]%bind_inv.
    apply IH in Hrest. unfold Train.printed_epochs in *.
    rewrite omap_app, Hrest. clear Hrest IH.
    unfold Train.train_epoch in Hep. revert Hep. run_m.
    pose proof (batches_print_no_epoch hp name val epoch (enumerate train) st)
      as Hquiet.
    destruct (for_ _ _ st) as [t' res]. cbn [fst] in Hquiet.
    intros [= <- _]. cbn. unfold Train.printed_epochs in Hquiet.
    by rewrite Hquiet.
Qed.


(** *** The best loss in memory *)

Lemma loops_best_loss_final hp name train val num_epochs epochs (st : locals) t st' :
  for_ epochs (train_epoch hp name train val num_epochs) st = (t, Ok st') →
  best_loss st' = default (best_loss st) (last (saved_best_losses t)).
Proof.
  pose (Q := λ (st : locals) (t : list event) (res : result locals),
    ∀ st', res = Ok st' →
      best_loss st' = default (best_loss st) (last (saved_best_losses t))).
  intros Hrun.
  cut (Q st (for_ epochs (train_epoch hp name train val num_epochs) st).1
            (for_ epochs (train_epoch hp name train val num_epochs) st).2).
  { rewrite Hrun. intros H. by apply H. }
  clear Hrun t st'. apply loops_post; unfold Q; clear Q st.
  - by intros st st' [= <-].
  - intros st t1 st1 t2 res H1 H2 st' Hres.
    rewrite (H2 st' Hres), (H1 st1 eq_refl).
    unfold Train.saved_best_losses. rewrite omap_app, last_app.
    by destruct (last (omap _ t2)).
  - by intros st epoch last st' [= <-].
  - intros epoch data st st'.
    destruct (train_step_outcome hp name val epoch data st)
      as [[_ ->]|[(_ & _ & ->)|[(_ & _ & best & _ & ->)|(_ & _ & e & _ & ->)]]];
      cbn [fst snd]; try done.
    + intros [= <-]. cbn. by rewrite optimise_best_loss.
    + intros [= <-]. unfold Train.saved_best_losses.
      cbn -[Train.checkpoint_record]. by rewrite checkpoint_record_best_loss.
Qed.

(** X3: when [main] returns, the [best_loss] in memory is the one of the
    last checkpoint written, or the value the loops started with when
    none was written. *)
Theorem final_best_loss_is_last_saved
    (fs : gmap string pydict) train val hp num_epochs resume name r sched t st' :
  (prologue fs hp resume name).2 = Ok (r, sched) →
  main fs train val hp num_epochs resume name = (t, Ok st') →
  best_loss st' = default (r_best_loss r) (last (saved_best_losses t)).
Proof.
  intros Hpro. rewrite main_eq.
  pose proof (prologue_quiet fs hp resume name) as Hquiet.
  destruct (prologue fs hp resume name) as [t0 res]. cbn in Hpro, Hquiet.
  subst res. destruct (py_range _ _) as [epochs|e]; [|done].
  destruct (for_ _ _ _) as [t1 res] eqn:Hrun. cbn [fst snd].
  intros [= <- ->]. apply loops_best_loss_final in Hrun. rewrite Hrun.
  destruct (quiet_saved_best_losses t0 Hquiet) as [Hs _].
  unfold Train.saved_best_losses in *. by rewrite omap_app, Hs.
Qed.

(** *** Runs that do not train *)

(** X4: a validation interval of zero: the first batch is optimised on, and
    [step % 0] raises before anything is validated or saved. *)
Theorem zero_interval_raises
    (fs : gmap string pydict) train val hp num_epochs resume name r sched e d ds :
  validation_interval hp = 0 →
  (prologue fs hp resume name).2 = Ok (r, sched) →
  start_epoch r = VInt e → e < num_epochs → train = d :: ds →
  main fs train val hp num_epochs resume name
    = ((prologue fs hp resume name).1 ++ [PrintEpoch e (num_epochs - 1)],
       Raise ZeroDivisionError).
Proof.
  intros Hvi Hpro He Hlt ->. rewrite main_eq.
  destruct (prologue fs hp resume name) as [t0 res]. cbn in Hpro. subst res.
  rewrite He. cbn [py_range fst]. rewrite seqZ_cons by lia. cbn [for_].
  destruct (train_step_outcome hp name val e d (loop_entry r sched))
    as [[_ Hstep]|[(Hz & _)|[(Hz & _)|(Hz & _)]]]; [|done..].
  assert (train_epoch hp name (d :: ds) val num_epochs e (loop_entry r sched)
            = ([PrintEpoch e (num_epochs - 1)], Raise ZeroDivisionError)) as ->.
  { unfold Train.train_epoch. run_m. unfold enumerate. cbn [length].
    rewrite seqZ_cons by lia. cbn [zip_with for_]. by rewrite Hstep. }
  done.
Qed.

Lemma epochs_without_batches hp name val num_epochs epochs (st : locals) :
  for_ epochs (train_epoch hp name [] val num_epochs) st
    = ((λ epoch, PrintEpoch epoch (num_epochs - 1)) <$> epochs, Ok st).
Proof.
  induction epochs as [|epoch epochs IH]; [done|]. cbn [for_].
  change (train_epoch hp name [] val num_epochs epoch st)
    with ([PrintEpoch epoch (num_epochs - 1) : event], Ok st).
  by rewrite bind_ok, IH.
Qed.


(** *** Checkpoints that cannot be resumed from *)


(** X7: a checkpoint whose [epoch] is not an [int] is loaded, and the run
    stops at [range(start_epoch, num_epochs)]. *)
Theorem resume_epoch_not_int_raises
    (fs : gmap string pydict) train val hp num_epochs resume name ck v b m o :
  resume ≠ "" → fs !! resume = Some ck →
  ck !! "epoch" = Some v → (∀ z, v ≠ VInt z) →
  ck !! "best_loss" = Some b →
  ck !! "state_dict" = Some (VStateDict m) →
  ck !! "optimizer" = Some (VOptimState o) →
  main fs train val hp num_epochs resume name
    = (setup_trace hp name ++ [PrintLoading resume; PrintLoaded resume v],
       Raise TypeError).
Proof.
  intros Hne Hfs Hv Hint Hb Hm Ho. rewrite main_eq, prologue_eq.
  rewrite (resume_block_loaded fs resume (fresh hp) ck v b m o) by done.
  cbn [start_epoch]. destruct v; try done. by destruct (Hint z).
Qed.

(** *** What is saved *)

(** Every record saved is the record of lines 194-201, in the file of
    its step. *)
Lemma saved_records (fs : gmap string pydict) train val hp num_epochs resume name :
  Forall (λ ev, match ev with
                | Save record path =>
                    ∃ s epoch m b o, record = checkpoint_record s epoch m b o
                                     ∧ path = save_path hp name s
                | _ => True
                end)
         (main fs train val hp num_epochs resume name).1.
Proof.
  set (ok := λ ev : event, match ev with
                | Save record path =>
                    ∃ s epoch m b o, record = checkpoint_record s epoch m b o
                                     ∧ path = save_path hp name s
                | _ => True
                end).
  assert (Hquiet : ∀ t, Forall quiet t → Forall ok t).
  { intros t H. eapply Forall_impl; [exact H|]. by intros []. }
  rewrite main_eq. pose proof (prologue_quiet fs hp resume name) as Hpro.
  destruct (prologue fs hp resume name) as [t0 [[r sched]|err]]; cbn [fst] in *;
    [|by auto].
  destruct (py_range _ _) as [epochs|err]; cbn [fst]; [|by auto].
  apply Forall_app. split; [by auto|].
  apply (loops_post (λ _ t _, Forall ok t)).
  - constructor.
  - intros _ t1 _ t2 _ H1 H2. apply Forall_app. done.
  - intros _ epoch last. by repeat constructor.
  - intros epoch data st.
    destruct (train_step_outcome hp name val epoch data st)
      as [[_ ->]|[(_ & _ & ->)|[(_ & _ & best & _ & ->)|(_ & _ & e & _ & ->)]]];
      cbn [fst]; repeat constructor. cbn. eauto 10.
Qed.

End Driver.

(** *** The scripted instance *)

Lemma validation_round_iff_interval_divides_step_witness :
  ∃ t st',
    Scripted.train [] ∅ 3 (Scripted.hp false 2) 2 ""
      = ((Train.prologue 0 0 (λ _ _, 0) (λ _, tt) ∅ (Scripted.hp false 2) "" "exp").1 ++ t,
         Ok st')
    ∧ loop_trace (Scripted.hp false 2) "exp" 0 t (step st')
    ∧ step st' = Z.max 0 (2 - 0) * Z.of_nat (length (replicate 3 tt)).
Proof.
  apply (validation_round_iff_interval_divides_step 0 0 (λ _ _, 0) (λ _, tt)
           Scripted.train_batch (Scripted.batch_loss []) Scripted.batch_dice Scripted.batch_rows
           Scripted.tracker_avg Scripted.scheduler_step ∅ (replicate 3 tt) [tt]
           (Scripted.hp false 2) 2 "" "exp"
           (Train.fresh 0 0 (λ _ _, 0) (Scripted.hp false 2)) tt 0);
    [done|reflexivity|reflexivity|reflexivity].
Defined.

Lemma first_batch_validates_and_saves_witness :
  ∃ loss acc record rest,
    (Scripted.train [] ∅ 3 (Scripted.hp false 5) 2 "").1
      = (Train.prologue 0 0 (λ _ _, 0) (λ _, tt) ∅ (Scripted.hp false 5) "" "exp").1
        ++ PrintEpoch 0 (2 - 1)
        :: PrintValidation loss acc :: LrStep loss
        :: Save record (save_path (Scripted.hp false 5) "exp" 0)
        :: PrintSaved (save_path (Scripted.hp false 5) "exp" 0) :: rest
    ∧ record !! "step" = Some (VInt 0).
Proof.
  apply (first_batch_validates_and_saves 0 0 (λ _ _, 0) (λ _, tt)
           Scripted.train_batch (Scripted.batch_loss []) Scripted.batch_dice Scripted.batch_rows
           Scripted.tracker_avg Scripted.scheduler_step ∅ (replicate 3 tt) [tt]
           (Scripted.hp false 5) 2 "" "exp"
           (Train.fresh 0 0 (λ _ _, 0) (Scripted.hp false 5)) tt 0 tt [tt; tt]);
    [done|reflexivity|reflexivity|done|reflexivity|reflexivity].
Defined.

Lemma arch_field_is_ResUnet_witness :
  Train.checkpoint_record 0 0 1 (VFloat 0.5) 1 !! "arch"
    = Some (VStr "ResUnet" : pyval Z Z).
Proof.
  apply (arch_field_is_ResUnet 0 0 (λ _ _, 0) (λ _, tt)
           Scripted.train_batch (Scripted.batch_loss []) Scripted.batch_dice Scripted.batch_rows
           Scripted.tracker_avg Scripted.scheduler_step ∅ (replicate 1 tt) [tt]
           (Scripted.hp true 1) 1 "" "exp" _ "checkpoints/exp/exp_checkpoint_0000.pt").
  vm_compute. repeat constructor.
Defined.

Lemma best_loss_running_min_non_increasing_witness :
  let t := (Scripted.train [0.75; 0.5; 0.625]%float ∅ 3 (Scripted.hp false 1) 1 "").1 in
  saved_best_losses t = running_min (VInt 999) (validation_losses t)
  ∧ non_increasing (VInt 999 :: saved_best_losses t).
Proof.
  destruct (best_loss_running_min_non_increasing 0 0 (λ _ _, 0) (λ _, tt)
              Scripted.train_batch (Scripted.batch_loss [0.75; 0.5; 0.625]%float)
              Scripted.batch_dice Scripted.batch_rows Scripted.tracker_avg Scripted.scheduler_step
              ∅ (replicate 3 tt) [tt] (Scripted.hp false 1) 1 "" "exp"
              (Train.fresh 0 0 (λ _ _, 0) (Scripted.hp false 1)) tt eq_refl)
    as [Hmin Hmono].
  split; [exact Hmin|]. apply Hmono; [reflexivity|].
  vm_compute. repeat constructor.
Defined.

Lemma resume_keeps_best_loss_restarts_step_witness :
  ∃ sched loss acc best m' o' rest,
    Train.prologue 0 0 (λ _ _, 0) (λ _, tt) Scripted.disk (Scripted.hp false 1)
        "checkpoints/exp/exp_checkpoint_0040.pt" "exp"
      = (setup_trace (Scripted.hp false 1) "exp"
           ++ [PrintLoading "checkpoints/exp/exp_checkpoint_0040.pt";
               PrintLoaded "checkpoints/exp/exp_checkpoint_0040.pt" (VInt 3)],
         Ok ({| start_epoch := VInt 3; r_best_loss := VFloat 0.25;
                r_model := 41; r_optimizer := 41 |}, sched))
    ∧ (Scripted.train [] Scripted.disk 2 (Scripted.hp false 1) 5
         "checkpoints/exp/exp_checkpoint_0040.pt").1
        = (Train.prologue 0 0 (λ _ _, 0) (λ _, tt) Scripted.disk (Scripted.hp false 1)
             "checkpoints/exp/exp_checkpoint_0040.pt" "exp").1
          ++ PrintEpoch 3 (5 - 1)
          :: PrintValidation loss acc :: LrStep loss
          :: Save (checkpoint_record 0 3 m' best o')
                  (save_path (Scripted.hp false 1) "exp" 0)
          :: PrintSaved (save_path (Scripted.hp false 1) "exp" 0) :: rest
    ∧ py_min (VFloat loss) (VFloat 0.25) = Ok best.
Proof.
  apply (resume_keeps_best_loss_restarts_step 0 0 (λ _ _, 0) (λ _, tt)
           Scripted.train_batch (Scripted.batch_loss []) Scripted.batch_dice Scripted.batch_rows
           Scripted.tracker_avg Scripted.scheduler_step Scripted.disk (replicate 2 tt) [tt]
           (Scripted.hp false 1) 5 "checkpoints/exp/exp_checkpoint_0040.pt" "exp"
           Scripted.checkpoint_40 40 3 (VFloat 0.25) 41 41 tt [tt]);
    try reflexivity; done.
Defined.

Lemma missing_checkpoint_starts_fresh_witness :
  ∃ t res,
    Scripted.train [] Scripted.disk 2 (Scripted.hp false 1) 1 ""
      = (setup_trace (Scripted.hp false 1) "exp" ++ t, res)
    ∧ Scripted.train [] Scripted.disk 2 (Scripted.hp false 1) 1 "checkpoints/exp/missing.pt"
        = (setup_trace (Scripted.hp false 1) "exp"
             ++ PrintNoCheckpoint "checkpoints/exp/missing.pt" :: t, res)
    ∧ (validation_interval (Scripted.hp false 1) ≠ 0 → ∃ st, res = Ok st).
Proof.
  apply (missing_checkpoint_starts_fresh 0 0 (λ _ _, 0) (λ _, tt)
           Scripted.train_batch (Scripted.batch_loss []) Scripted.batch_dice Scripted.batch_rows
           Scripted.tracker_avg Scripted.scheduler_step Scripted.disk (replicate 2 tt) [tt]
           (Scripted.hp false 1) 1 "checkpoints/exp/missing.pt" "exp");
    [done|reflexivity].
Defined.

Lemma fresh_best_loss_is_999_witness :
  ∃ sched loss acc best m' o' rest,
    Train.prologue 0 0 (λ _ _, 0) (λ _, tt) ∅ (Scripted.hp false 1) "" "exp"
      = (setup_trace (Scripted.hp false 1) "exp",
         Ok (Train.fresh 0 0 (λ _ _, 0) (Scripted.hp false 1), sched))
    ∧ r_best_loss (Train.fresh 0 0 (λ _ _, 0) (Scripted.hp false 1)) = VInt 999
    ∧ (Scripted.train [1000%float] ∅ 1 (Scripted.hp false 1) 1 "").1
        = setup_trace (Scripted.hp false 1) "exp"
          ++ PrintEpoch 0 (1 - 1)
          :: PrintValidation loss acc :: LrStep loss
          :: Save (checkpoint_record 0 0 m' best o')
                  (save_path (Scripted.hp false 1) "exp" 0)
          :: PrintSaved (save_path (Scripted.hp false 1) "exp" 0) :: rest
    ∧ py_min (VFloat loss) (VInt 999) = Ok best
    ∧ (py_le (VFloat loss : pyval Z Z) (VInt 999) = Ok true → best = VFloat loss)
    ∧ (py_lt (VInt 999 : pyval Z Z) (VFloat loss) = Ok true → best = VInt 999).
Proof.
  apply (fresh_best_loss_is_999 0 0 (λ _ _, 0) (λ _, tt)
           Scripted.train_batch (Scripted.batch_loss [1000%float]) Scripted.batch_dice
           Scripted.batch_rows Scripted.tracker_avg Scripted.scheduler_step ∅ (replicate 1 tt)
           [tt] (Scripted.hp false 1) 1 "exp" tt []); [done|done|reflexivity].
Defined.

(** *** Where the specification and the code part *)

(** C1: a run resumed from the checkpoint of step 40 emits step 0
    first, not step 41. *)
Lemma resumed_run_restarts_at_step_0 :
  let t := (Scripted.train [] Scripted.disk 2 (Scripted.hp false 1) 5
              "checkpoints/exp/exp_checkpoint_0040.pt").1 in
  Scripted.disk !! "checkpoints/exp/exp_checkpoint_0040.pt" = Some Scripted.checkpoint_40
  ∧ Scripted.checkpoint_40 !! "step" = Some (VInt 40)
  ∧ saved_steps t = [VInt 0; VInt 1; VInt 2; VInt 3]
  ∧ head (saved_steps t) ≠ Some (VInt 41).
Proof. vm_compute. repeat split; done. Qed.

(** C2: a run given a resume path that names no file does not fail: it
    trains from the fresh state and returns. *)
Lemma missing_checkpoint_run_returns :
  let run := Scripted.train [] Scripted.disk 1 (Scripted.hp false 1) 1
               "checkpoints/exp/missing.pt" in
  Scripted.disk !! "checkpoints/exp/missing.pt" = None
  ∧ run.2 = Ok {| model := 1; optimizer := 1; lr_scheduler := tt;
                  best_loss := VFloat 0.5; step := 1 |}
  ∧ (∀ e, run.2 ≠ Raise e)
  ∧ validation_losses run.1 = [0.5%float]
  ∧ saved_best_losses run.1 = [VFloat 0.5].
Proof. vm_compute. repeat split; done. Qed.

(** C3: a validation loss that is NaN is saved as [best_loss], and the
    next record is not below it. *)
Lemma nan_loss_breaks_non_increasing :
  let t := (Scripted.train [nan; 0.5%float] ∅ 2 (Scripted.hp false 1) 1 "").1 in
  validation_losses t = [nan; 0.5%float]
  ∧ saved_best_losses t = [VFloat nan; VFloat 0.5]
  ∧ py_le (VFloat 0.5 : pyval Z Z) (VFloat nan) = Ok false
  ∧ ¬ non_increasing (saved_best_losses t).
Proof.
  assert (Ht : saved_best_losses
                 (Scripted.train [nan; 0.5%float] ∅ 2 (Scripted.hp false 1) 1 "").1
               = [VFloat nan; VFloat 0.5]) by (vm_compute; reflexivity).
  cbv zeta. rewrite Ht. repeat split; try (vm_compute; reflexivity).
  intros H. specialize (H 0%nat (VFloat nan) (VFloat 0.5) eq_refl eq_refl).
  vm_compute in H. discriminate H.
Qed.

(** C8: [best_loss] starts at 999, and a first validation loss of 1000
    does not become the best loss. *)
Lemma first_loss_above_999_is_not_kept :
  let t := (Scripted.train [1000%float] ∅ 1 (Scripted.hp false 1) 1 "").1 in
  r_best_loss (Train.fresh 0 0 (λ _ _, 0) (Scripted.hp false 1)) = VInt 999
  ∧ validation_losses t = [1000%float]
  ∧ saved_best_losses t = [VInt 999]
  ∧ saved_best_losses t ≠ [VFloat 1000].
Proof. vm_compute. repeat split; done. Qed.

(** *** The closed forms on the scripted instance *)

Lemma checkpoints_at_multiples_of_interval_witness :
  let t := (Scripted.train [] ∅ 3 (Scripted.hp false 2) 2 "").1 in
  saved_steps t = [VInt 0; VInt 2; VInt 4]
  ∧ saved_paths t
    = ["checkpoints/exp/exp_checkpoint_0000.pt";
       "checkpoints/exp/exp_checkpoint_0002.pt";
       "checkpoints/exp/exp_checkpoint_0004.pt"].
Proof.
  exact (checkpoints_at_multiples_of_interval 0 0 (λ _ _, 0) (λ _, tt)
           Scripted.train_batch (Scripted.batch_loss []) Scripted.batch_dice
           Scripted.batch_rows Scripted.tracker_avg Scripted.scheduler_step
           ∅ (replicate 3 tt) [tt] (Scripted.hp false 2) 2 "" "exp"
           (Train.fresh 0 0 (λ _ _, 0) (Scripted.hp false 2)) tt 0
           ltac:(done) eq_refl eq_refl eq_refl).
Defined.


Lemma final_best_loss_is_last_saved_witness :
  let run := Scripted.train [0.75; 0.5; 0.625]%float ∅ 3 (Scripted.hp false 2) 1 "" in
  VFloat 0.625 = default (VInt 999) (last (saved_best_losses run.1)).
Proof.
  apply (final_best_loss_is_last_saved 0 0 (λ _ _, 0) (λ _, tt)
           Scripted.train_batch (Scripted.batch_loss [0.75; 0.5; 0.625]%float)
           Scripted.batch_dice Scripted.batch_rows Scripted.tracker_avg
           Scripted.scheduler_step ∅ (replicate 3 tt) [tt] (Scripted.hp false 2)
           1 "" "exp" (Train.fresh 0 0 (λ _ _, 0) (Scripted.hp false 2)) tt
           (Scripted.train [0.75; 0.5; 0.625]%float ∅ 3 (Scripted.hp false 2) 1 "").1
           {| model := 3; optimizer := 3; lr_scheduler := tt;
              best_loss := VFloat 0.625; step := 3 |});
    [reflexivity|vm_compute; reflexivity].
Defined.

Lemma zero_interval_raises_witness :
  Scripted.train [] ∅ 3 (Scripted.hp false 0) 2 ""
    = ((Train.prologue 0 0 (λ _ _, 0) (λ _, tt) ∅ (Scripted.hp false 0) "" "exp").1
         ++ [PrintEpoch 0 (2 - 1)],
       Raise ZeroDivisionError).
Proof.
  apply (zero_interval_raises 0 0 (λ _ _, 0) (λ _, tt)
           Scripted.train_batch (Scripted.batch_loss []) Scripted.batch_dice
           Scripted.batch_rows Scripted.tracker_avg Scripted.scheduler_step
           ∅ (replicate 3 tt) [tt] (Scripted.hp false 0) 2 "" "exp"
           (Train.fresh 0 0 (λ _ _, 0) (Scripted.hp false 0)) tt 0 tt [tt; tt]);
    [reflexivity|reflexivity|reflexivity|done|reflexivity].
Defined.



Lemma resume_epoch_not_int_raises_witness :
  Scripted.train []
      {[ "checkpoints/exp/odd.pt" := <["epoch" := VFloat 3]> Scripted.checkpoint_40 ]}
      2 (Scripted.hp false 1) 5 "checkpoints/exp/odd.pt"
    = (setup_trace (Scripted.hp false 1) "exp"
         ++ [PrintLoading "checkpoints/exp/odd.pt";
             PrintLoaded "checkpoints/exp/odd.pt" (VFloat 3)],
       Raise TypeError).
Proof.
  apply (resume_epoch_not_int_raises 0 0 (λ _ _, 0) (λ _, tt)
           Scripted.train_batch (Scripted.batch_loss []) Scripted.batch_dice
           Scripted.batch_rows Scripted.tracker_avg Scripted.scheduler_step
           {[ "checkpoints/exp/odd.pt" := <["epoch" := VFloat 3]> Scripted.checkpoint_40 ]}
           (replicate 2 tt) [tt] (Scripted.hp false 1) 5
           "checkpoints/exp/odd.pt" "exp"
           (<["epoch" := VFloat 3]> Scripted.checkpoint_40)
           (VFloat 3) (VFloat 0.25) 41 41);
    try reflexivity; done.
Defined.

End TrainFacts.

(** ** Facts about eval.py *)

Module EvaluateFacts.
Import Py PyFacts Evaluate.

Section Driver.
Context {Model Optim Batch Image : Type}.
Variables ResUnet ResUnetPlusPlus : Model.
Variable batch_size0 : Batch → Z.
Variable dice_coeff : Model → Batch → float.
Variable hd95_batch : Model → Batch → float.
Variable equal_count : Model → Batch → float.
Variable numel : Batch → Z.
Variable combined : Model → Batch → Z → Image.

Local Abbreviation pyval := (pyval Model Optim).
Local Abbreviation pydict := (gmap string pyval).
Local Abbreviation evaluate :=
  (evaluate (Optim:=Optim) batch_size0 dice_coeff hd95_batch equal_count numel
            combined).
Local Abbreviation load_checkpoint :=
  (load_checkpoint (Model:=Model) (Optim:=Optim) (Image:=Image)).
Local Abbreviation evaluate_batch :=
  (evaluate_batch (Optim:=Optim) batch_size0 dice_coeff hd95_batch equal_count
                  numel combined).
Local Abbreviation save_results :=
  (save_results (Optim:=Optim) batch_size0 combined).
Local Abbreviation written_paths :=
  (written_paths (Model:=Model) (Optim:=Optim) (Image:=Image)).
Local Abbreviation sample_names := (sample_names batch_size0).

(** *** The names of the pictures *)

Lemma append_cons c (a b : string) : String c a +:+ b = String c (a +:+ b).
Proof. reflexivity. Qed.

Lemma append_nil (b : string) : "" +:+ b = b.
Proof. reflexivity. Qed.

Lemma length_append (a b : string) :
  String.length (a +:+ b) = (String.length a + String.length b)%nat.
Proof.
  induction a as [|c a IH]; [done|]. rewrite append_cons. cbn. by rewrite IH.
Qed.

Lemma append_inj_r (a b s : string) : a +:+ s = b +:+ s → a = b.
Proof.
  revert b. induction a as [|c a IH]; intros [|c' b];
    rewrite ?append_cons, ?append_nil; intros H.
  - done.
  - apply (f_equal String.length) in H. cbn [String.length] in H.
    rewrite length_append in H. lia.
  - apply (f_equal String.length) in H. cbn [String.length] in H.
    rewrite length_append in H. lia.
  - injection H as -> H. f_equal. by apply IH.
Qed.

(** The name of a picture determines the index [batch_idx * size0 + i]. *)
Lemma out_filename_inj folder k1 s1 i1 k2 s2 i2 :
  out_filename folder k1 s1 i1 = out_filename folder k2 s2 i2 →
  k1 * s1 + i1 = k2 * s2 + i2.
Proof.
  unfold out_filename, path_join. rewrite !append_cons, !append_nil.
  intros H. apply (inj pretty). apply (append_inj_r _ _ ".png").
  destruct (decide (folder = "")); [|destruct (ends_with_slash folder)].
  - by simplify_eq.
  - apply String.app_inj in H. by simplify_eq.
  - apply String.app_inj in H. by simplify_eq.
Qed.

Lemma save_results_eq (model : Model) folder k d :
  save_results model folder k d
    = ((λ i, Imwrite (out_filename folder k (batch_size0 d) i) (combined model d i))
         <$> seqZ 0 (batch_size0 d), Ok tt).
Proof.
  unfold Evaluate.save_results. induction (seqZ 0 (batch_size0 d)) as [|i l IH].
  - done.
  - cbn [for_]. unfold emit at 1. rewrite bind_ok, IH. done.
Qed.

(** A batch either raises before anything is written or writes the
    pictures of its samples. *)
Lemma evaluate_batch_paths (model : Model) folder k d acc :
  let run := evaluate_batch model folder (k, d) acc in
  (run.1 = [] ∧ ∃ e, run.2 = Raise e)
  ∨ (written_paths run.1 = sample_names folder [(k, d)] ∧ ∃ acc', run.2 = Ok acc').
Proof.
  unfold Evaluate.evaluate_batch. run_m.
  repeat match goal with
         | |- context [match ?x with Ok _ => _ | Raise _ => _ end] =>
             destruct x; [|left; eauto]
         end.
  rewrite save_results_eq. right. cbn [bind fst snd]. rewrite ?app_nil_r. split; [|eauto].
  unfold Evaluate.written_paths, Evaluate.sample_names. cbn. rewrite app_nil_r.
  induction (seqZ 0 (batch_size0 d)) as [|i l IH]; cbn; [done|]. by rewrite IH.
Qed.

Lemma for_batches_paths (model : Model) folder items acc :
  written_paths (for_ items (evaluate_batch model folder) acc).1
    `prefix_of` sample_names folder items.
Proof.
  revert acc. induction items as [|[k d] items IH]; intros acc; cbn [for_].
  - done.
  - destruct (evaluate_batch_paths model folder k d acc)
      as [[Ht [e He]]|[Ht [acc' He]]];
      destruct (evaluate_batch model folder (k, d) acc) as [t res];
      cbn [fst snd] in *; subst.
    + apply prefix_nil.
    + rewrite bind_ok. cbn [fst]. unfold Evaluate.written_paths in *.
      rewrite omap_app, Ht.
      unfold Evaluate.sample_names. cbn. rewrite app_nil_r.
      apply prefix_app, IH.
Qed.

Lemma evaluate_trace (model : Model) loader folder :
  (evaluate model loader folder).1
    = Makedirs folder
      :: (for_ (enumerate loader) (evaluate_batch model folder)
               {| dice_sum := VFloat 0; hd95_sum := VFloat 0;
                  pixel_correct := VInt 0; pixel_total := VInt 0;
                  num_samples := VInt 0 |}).1.
Proof.
  unfold Evaluate.evaluate. run_m.
  destruct (for_ _ _ _) as [t [acc|e]]; cbn [bind fst]; [|done].
  repeat match goal with
         | |- context [match ?x with Ok _ => _ | Raise _ => _ end] =>
             destruct x; cbn [fst]
         end; by rewrite ?app_nil_r.
Qed.

Lemma sample_names_equal_batches folder (B k0 : Z) (ds : list Batch) :
  Forall (λ d, batch_size0 d = B) ds →
  NoDup (sample_names folder (zip (seqZ k0 (Z.of_nat (length ds))) ds)).
Proof.
  intros Hds.
  assert (Hname : ∀ items, Forall (λ item, batch_size0 item.2 = B) items →
    sample_names folder items
      = (λ n, out_filename folder n 1 0)
          <$> concat ((λ item, (λ i, item.1 * B + i) <$> seqZ 0 B) <$> items)).
  { induction 1 as [|[k d] items Hd _ IH]; [done|]. cbn in Hd.
    unfold Evaluate.sample_names in *. cbn. rewrite IH, fmap_app, Hd. f_equal.
    rewrite <-list_fmap_compose. apply list_fmap_ext. intros _ i _. cbn.
    unfold Evaluate.out_filename. by rewrite Z.mul_1_r, Z.add_0_r. }
  rewrite Hname.
  2:{ clear Hname. revert k0. induction Hds as [|d ds Hd _ IH]; intros k0; [done|].
      cbn [length]. rewrite Nat2Z.inj_succ, seqZ_cons by lia. cbn.
      constructor; [done|]. rewrite Z.pred_succ. apply IH. }
  apply NoDup_fmap_2_strong.
  { intros n1 n2 _ _ H%out_filename_inj. lia. }
  destruct (decide (B < 0)) as [Hneg|Hpos].
  { rewrite (seqZ_nil 0 B) by lia.
    clear. generalize (zip (seqZ k0 (Z.of_nat (length ds))) ds).
    intros items. induction items; cbn; [constructor|done]. }
  assert (Hidx : ∀ k0, concat ((λ item : Z * Batch, (λ i, item.1 * B + i) <$> seqZ 0 B)
                    <$> zip (seqZ k0 (Z.of_nat (length ds))) ds)
                 = seqZ (k0 * B) (Z.of_nat (length ds) * B)).
  { clear k0 Hds Hname. induction ds as [|d ds IH]; intros k0; [done|].
    cbn [length]. rewrite Nat2Z.inj_succ, (seqZ_cons k0) by lia. cbn.
    rewrite Z.pred_succ, IH.
    replace (Z.succ (Z.of_nat (length ds)) * B) with (B + Z.of_nat (length ds) * B)
      by lia.
    rewrite seqZ_app by lia. f_equal; [|f_equal; lia].
    transitivity (Z.add (k0 * B) <$> seqZ 0 B); [done|].
    rewrite fmap_add_seqZ. f_equal. lia. }
  rewrite Hidx. apply NoDup_seqZ.
Qed.

(** X10: when every batch has the same number of samples, no two pictures
    get the same name. *)
Lemma names_unique_equal_batches (model : Model) loader folder (B : Z) :
  Forall (λ d, batch_size0 d = B) loader →
  NoDup (written_paths (evaluate model loader folder).1).
Proof.
  intros Hsize. rewrite evaluate_trace.
  change (written_paths (Makedirs folder :: ?t)) with (written_paths t).
  destruct (for_batches_paths model folder (enumerate loader)
    {| dice_sum := VFloat 0; hd95_sum := VFloat 0; pixel_correct := VInt 0;
       pixel_total := VInt 0; num_samples := VInt 0 |}) as [rest Hrest].
  pose proof (sample_names_equal_batches folder B 0 loader Hsize) as Hnodup.
  unfold enumerate in Hrest. rewrite Hrest in Hnodup.
  by apply NoDup_app in Hnodup as [? _].
Qed.

(** *** No sample *)

(** The accumulators while no sample has been counted. *)
Lemma for_zero_batches (model : Model) folder (items : list (Z * Batch)) acc :
  Forall (λ item, batch_size0 item.2 = 0) items →
  num_samples acc = VInt 0 →
  (∃ f, dice_sum acc = VFloat f) → (∃ f, hd95_sum acc = VFloat f) →
  (pixel_correct acc = VInt 0 ∨ ∃ f, pixel_correct acc = VFloat f) →
  (∃ z, pixel_total acc = VInt z) →
  ∃ acc', for_ items (evaluate_batch model folder) acc = ([], Ok acc')
          ∧ num_samples acc' = VInt 0 ∧ ∃ f, dice_sum acc' = VFloat f.
Proof.
  intros Hitems. revert acc.
  induction Hitems as [|[k d] items Hd _ IH];
    intros acc Hn [fd Hdice] [fh Hhd] Hpc [z Hpt]; cbn [for_].
  - exists acc. eauto.
  - cbn in Hd.
    assert (∃ acc1, evaluate_batch model folder (k, d) acc = ([], Ok acc1)
              ∧ num_samples acc1 = VInt 0
              ∧ (∃ f, dice_sum acc1 = VFloat f) ∧ (∃ f, hd95_sum acc1 = VFloat f)
              ∧ (∃ f, pixel_correct acc1 = VFloat f)
              ∧ ∃ z, pixel_total acc1 = VInt z) as (acc1 & -> & H1 & H2 & H3 & H4 & H5).
    { unfold Evaluate.evaluate_batch. rewrite save_results_eq, Hd, Hn, Hdice, Hhd, Hpt.
      destruct Hpc as [->|[fp ->]]; eexists; (split; [reflexivity|]); cbn; eauto 10. }
    destruct H4 as [fp H4].
    destruct (IH acc1) as (acc' & Hfor & Hres); eauto.
    rewrite bind_ok, Hfor. by exists acc'.
Qed.

(** C7: on a test set that yields no sample, [num_samples] is 0 when
    the loop ends and the averages are not computed: the first division
    raises [ZeroDivisionError], after the result folder has been created
    and without a picture written. *)
Theorem evaluate_no_sample_raises
    (model : Model) (test_loader : list Batch) (result_folder : string) :
  Forall (λ d, batch_size0 d = 0) test_loader →
  evaluate model test_loader result_folder
    = ([Makedirs result_folder], Raise ZeroDivisionError).
Proof.
  intros Hempty. unfold Evaluate.evaluate. run_m.
  destruct (for_zero_batches model result_folder (enumerate test_loader)
    {| dice_sum := VFloat 0; hd95_sum := VFloat 0; pixel_correct := VInt 0;
       pixel_total := VInt 0; num_samples := VInt 0 |})
    as (acc & -> & Hn & [f Hdice]); cbn; eauto.
  - unfold enumerate. generalize (seqZ 0 (Z.of_nat (length test_loader))).
    induction Hempty as [|d ds Hd _ IH]; intros [|k ks]; cbn; by constructor.
  - by rewrite Hn, Hdice.
Qed.

(** C6, amended: on a record without the [epoch] key the loader of
    [eval.py] succeeds, the epoch reported as "N/A", while the resume
    block of [train.py], which starts the loop at that epoch, raises
    [KeyError]. *)
Theorem absent_epoch_eval_loads_train_raises
    (fs : gmap string pydict) (path : string) (ck : pydict)
    (model m : Model) (r : Train.resumable) :
  path ≠ "" → fs !! path = Some ck → ck !! "epoch" = None →
  ck !! "state_dict" = Some (VStateDict m) →
  load_checkpoint fs path model
    = ([PrintLoading path; PrintLoaded path (VStr "N/A")], Ok m)
  ∧ Train.resume_block fs path r
    = ([Train.PrintLoading path], Raise (KeyError "epoch")).
Proof.
  intros Hne Hfs Hepoch Hsd. split.
  - unfold Evaluate.load_checkpoint, getitem, get.
    by rewrite Hfs, Hsd, Hepoch.
  - unfold Train.resume_block, getitem. rewrite Hfs, Hepoch.
    by destruct (decide (path = "")).
Qed.
(** *** Runs that return *)

Local Abbreviation main :=
  (main (Optim:=Optim) ResUnet ResUnetPlusPlus batch_size0 dice_coeff hd95_batch
        equal_count numel combined).
Local Abbreviation written := (written (Model:=Model) (Optim:=Optim) (Image:=Image)).
Local Abbreviation samples := (samples batch_size0).
Local Abbreviation elements := (elements numel).

Lemma for_batches_paths_ok (model : Model) folder items acc t acc' :
  for_ items (evaluate_batch model folder) acc = (t, Ok acc') →
  written_paths t = sample_names folder items.
Proof.
  revert acc t. induction items as [|[k d] items IH]; intros acc t; cbn [for_].
  - by intros [= <- _].
  - intros [(t1 & acc1 & t2 & Hb & Hrest & ->)|(e & _ & [=])]%bind_inv.
    apply IH in Hrest.
    destruct (evaluate_batch_paths model folder k d acc)
      as [[_ [e He]]|[Ht _]]; rewrite Hb in *; cbn [fst snd] in *; [done|].
    unfold Evaluate.written_paths in *. rewrite omap_app, Ht, Hrest.
    unfold Evaluate.sample_names. cbn. by rewrite app_nil_r.
Qed.

Lemma evaluate_ok_inv (model : Model) loader folder t res :
  evaluate model loader folder = (t, Ok res) →
  ∃ t' acc,
    t = Makedirs folder :: t'
    ∧ for_ (enumerate loader) (evaluate_batch model folder)
        {| dice_sum := VFloat 0; hd95_sum := VFloat 0; pixel_correct := VInt 0;
           pixel_total := VInt 0; num_samples := VInt 0 |} = (t', Ok acc)
    ∧ ∃ a b c, res = (a, b, c)
        ∧ py_truediv (dice_sum acc) (num_samples acc) = Ok a
        ∧ py_truediv (hd95_sum acc) (num_samples acc) = Ok b
        ∧ py_truediv (pixel_correct acc) (pixel_total acc) = Ok c.
Proof.
  unfold Evaluate.evaluate. run_m.
  destruct (for_ _ _ _) as [t' [acc|e]]; cbn [bind fst snd]; [|done].
  destruct (py_truediv (dice_sum acc) (num_samples acc)) as [a|e] eqn:Ha; [|done].
  destruct (py_truediv (hd95_sum acc) (num_samples acc)) as [b|e] eqn:Hb; [|done].
  destruct (py_truediv (pixel_correct acc) (pixel_total acc)) as [c|e] eqn:Hc;
    [|done].
  cbn. rewrite !app_nil_r. intros [= <- <-]. exists t', acc.
  split; [done|]. split; [done|]. by exists a, b, c.
Qed.

Lemma length_sample_names folder (items : list (Z * Batch)) :
  Forall (λ item, 0 ≤ batch_size0 item.2) items →
  Z.of_nat (length (sample_names folder items)) = samples (items.*2).
Proof.
  induction 1 as [|[k d] items Hd _ IH]; [done|].
  unfold Evaluate.sample_names in *. cbn in *.
  rewrite length_app, length_fmap, length_seqZ, Nat2Z.inj_add, IH.
  unfold Evaluate.samples. lia.
Qed.

Lemma enumerate_snd {X} (xs : list X) : (enumerate xs).*2 = xs.
Proof. unfold enumerate. apply snd_zip. rewrite length_seqZ. lia. Qed.

Lemma enumerate_Forall {X} (P : X → Prop) (xs : list X) :
  Forall P xs → Forall (λ item, P item.2) (enumerate xs).
Proof.
  unfold enumerate. generalize (seqZ 0 (Z.of_nat (length xs))).
  intros ks H. revert ks.
  induction H as [|x xs Hx _ IH]; intros [|k ks]; cbn; by constructor.
Qed.

(** X11: an evaluation that returns has written one picture for each sample,
    in the order of the samples. *)
Theorem evaluate_writes_one_picture_per_sample
    (model : Model) loader folder t res :
  Forall (λ d, 0 ≤ batch_size0 d) loader →
  evaluate model loader folder = (t, Ok res) →
  written_paths t = sample_names folder (enumerate loader)
  ∧ Z.of_nat (length (written_paths t)) = samples loader.
Proof.
  intros Hsize (t' & acc & -> & Hfor & _)%evaluate_ok_inv.
  apply for_batches_paths_ok in Hfor.
  change (written_paths (Makedirs folder :: t')) with (written_paths t').
  rewrite Hfor. split; [done|].
  rewrite length_sample_names by exact (enumerate_Forall (λ d, 0 ≤ batch_size0 d) _ Hsize).
  by rewrite enumerate_snd.
Qed.

Lemma written_dom (t : list event) (files : gmap string Image) :
  dom (foldl (λ files e, match e with
                         | Imwrite path img => <[path := img]> files
                         | _ => files
                         end) files t)
    = dom files ∪ list_to_set (written_paths t).
Proof.
  revert files. induction t as [|ev t IH]; intros files; cbn.
  - by rewrite union_empty_r_L.
  - rewrite IH. destruct ev; cbn; try done.
    by rewrite dom_insert_L, (union_comm_L {[path]}), (assoc_L (∪)).
Qed.

(** X12: when every batch has the same number of samples, an evaluation that
    returns leaves as many files in the result folder as there are
    samples. *)
Theorem evaluate_equal_batches_one_file_per_sample
    (model : Model) loader folder (B : Z) t res :
  0 ≤ B → Forall (λ d, batch_size0 d = B) loader →
  evaluate model loader folder = (t, Ok res) →
  Z.of_nat (size (written t)) = samples loader.
Proof.
  intros HB Hsize (t' & acc & -> & Hfor & _)%evaluate_ok_inv.
  apply for_batches_paths_ok in Hfor.
  pose proof (sample_names_equal_batches folder B 0 loader Hsize) as Hnodup.
  fold (enumerate loader) in Hnodup. rewrite <-Hfor in Hnodup.
  assert (Hpos : Forall (λ d, 0 ≤ batch_size0 d) loader).
  { eapply Forall_impl; [exact Hsize|]. cbn. lia. }
  transitivity (samples (enumerate loader).*2); [|by rewrite enumerate_snd].
  rewrite <-(length_sample_names folder)
    by exact (enumerate_Forall (λ d, 0 ≤ batch_size0 d) _ Hpos).
  rewrite <-Hfor. f_equal.
  unfold Evaluate.written. cbn [foldl].
  rewrite <-size_dom, written_dom, dom_empty_L, union_empty_l_L.
  by apply size_list_to_set.
Qed.

(** *** The averages *)

Lemma py_truediv_int_ok (x a : pyval) (n : Z) :
  py_truediv x (VInt n) = Ok a → n ≠ 0 ∧ ∃ f, a = VFloat f.
Proof.
  unfold py_truediv, float_op.
  destruct x; try done; cbn [is_zero];
    (destruct (Z.eqb_spec n 0); [done|]);
    repeat (case_match; try done); intros [= <-]; eauto.
Qed.

Lemma evaluate_batch_counts (model : Model) folder k d acc t acc' n p :
  num_samples acc = VInt n → pixel_total acc = VInt p →
  evaluate_batch model folder (k, d) acc = (t, Ok acc') →
  num_samples acc' = VInt (n + batch_size0 d)
  ∧ pixel_total acc' = VInt (p + numel d).
Proof.
  intros Hn Hp. unfold Evaluate.evaluate_batch. rewrite Hn, Hp. run_m.
  change (py_add (VInt n) (VInt (batch_size0 d)))
    with (Ok (VInt (n + batch_size0 d) : pyval)).
  change (py_add (VInt p) (VInt (numel d)))
    with (Ok (VInt (p + numel d) : pyval)).
  repeat match goal with
         | |- context [match ?x with Ok _ => _ | Raise _ => _ end] =>
             destruct x; [|done]
         end.
  rewrite save_results_eq. cbn. by intros [= _ <-].
Qed.

Lemma for_batches_counts (model : Model) folder items acc t acc' n p :
  num_samples acc = VInt n → pixel_total acc = VInt p →
  for_ items (evaluate_batch model folder) acc = (t, Ok acc') →
  num_samples acc' = VInt (n + samples (items.*2))
  ∧ pixel_total acc' = VInt (p + elements (items.*2)).
Proof.
  revert acc t n p. induction items as [|[k d] items IH]; intros acc t n p Hn Hp;
    cbn [for_].
  - intros [= _ <-]. cbn. by rewrite !Z.add_0_r.
  - intros [(t1 & acc1 & t2 & Hb & Hrest & _)|(e & _ & [=])]%bind_inv.
    destruct (evaluate_batch_counts _ _ _ _ _ _ _ _ _ Hn Hp Hb) as [Hn1 Hp1].
    destruct (IH _ _ _ _ Hn1 Hp1 Hrest) as [-> ->].
    unfold Evaluate.samples, Evaluate.elements. cbn.
    split; f_equal; lia.
Qed.

(** X13: the averages [evaluate] returns are floats, and it returns them only
    when the loader has yielded a number of samples and a number of
    mask elements other than zero. *)
Theorem evaluate_returns_floats_of_nonempty_run
    (model : Model) loader folder t avg_dice avg_hd95 accuracy :
  evaluate model loader folder = (t, Ok (avg_dice, avg_hd95, accuracy)) →
  samples loader ≠ 0 ∧ elements loader ≠ 0
  ∧ ∃ f1 f2 f3,
      avg_dice = VFloat f1 ∧ avg_hd95 = VFloat f2 ∧ accuracy = VFloat f3.
Proof.
  intros (t' & acc & _ & Hfor & a & b & c & [= -> -> ->] & Ha & Hb & Hc)%evaluate_ok_inv.
  apply (for_batches_counts _ _ _ _ _ _ 0 0) in Hfor as [Hn Hp]; [|done..].
  rewrite enumerate_snd, Z.add_0_l in Hn, Hp. rewrite Hn in Ha, Hb. rewrite Hp in Hc.
  apply py_truediv_int_ok in Ha as [Hs [f1 ->]].
  apply py_truediv_int_ok in Hb as [_ [f2 ->]].
  apply py_truediv_int_ok in Hc as [He [f3 ->]].
  eauto 10.
Qed.

(** *** A checkpoint that cannot be loaded *)


End Driver.

Lemma evaluate_no_sample_raises_witness :
  Scripted.evaluate [] = ([Makedirs "results_resunet"], Raise ZeroDivisionError).
Proof.
  apply (evaluate_no_sample_raises (Optim:=Z) (Model:=Z) (Image:=Z * Z)
           (λ size, size) (λ _ _, 1%float) (λ _ _, 2%float)
           (λ _ size, 3%float) (λ size, size * 16) (λ _ size i, (size, i))
           0 [] "results_resunet").
  constructor.
Defined.

Lemma absent_epoch_eval_loads_train_raises_witness :
  Evaluate.load_checkpoint (Image:=Z * Z)
      {[ "checkpoints/exp/old.pt" := Scripted.checkpoint_no_epoch ]}
      "checkpoints/exp/old.pt" 0
    = ([PrintLoading "checkpoints/exp/old.pt";
        PrintLoaded "checkpoints/exp/old.pt" (VStr "N/A")], Ok 41)
  ∧ Train.resume_block {[ "checkpoints/exp/old.pt" := Scripted.checkpoint_no_epoch ]}
      "checkpoints/exp/old.pt" (Train.fresh 0 0 (λ _ _, 0) (Scripted.hp false 1))
    = ([Train.PrintLoading "checkpoints/exp/old.pt"], Raise (KeyError "epoch")).
Proof.
  apply (absent_epoch_eval_loads_train_raises
           {[ "checkpoints/exp/old.pt" := Scripted.checkpoint_no_epoch ]}
           "checkpoints/exp/old.pt" Scripted.checkpoint_no_epoch);
    [done|reflexivity|reflexivity|reflexivity].
Defined.

(** C6: the training run resumed from a record without the [epoch] key
    fails. *)
Lemma resume_without_epoch_fails :
  let fs : gmap string (gmap string (pyval Z Z)) :=
    {[ "checkpoints/exp/old.pt" := Scripted.checkpoint_no_epoch ]} in
  Scripted.checkpoint_no_epoch !! "epoch" = None
  ∧ Scripted.train [] fs 2 (Scripted.hp false 1) 5 "checkpoints/exp/old.pt"
    = ([Train.Makedirs "checkpoints/exp"; Train.Makedirs "logs/exp";
        Train.OpenWriter "logs/exp";
        Train.PrintLoading "checkpoints/exp/old.pt"],
       Raise (KeyError "epoch")).
Proof. vm_compute. split; reflexivity. Qed.

(** C5: six samples in batches of four.  The two samples of the last
    batch are written under the names of samples 2 and 3 of the first:
    four files for six samples. *)
Theorem last_batch_overwrites_results :
  let t := (Scripted.evaluate [4; 2]).1 in
  written_paths t
    = ["results_resunet/sample_0.png"; "results_resunet/sample_1.png";
       "results_resunet/sample_2.png"; "results_resunet/sample_3.png";
       "results_resunet/sample_2.png"; "results_resunet/sample_3.png"]
  ∧ size (written t) = 4%nat
  ∧ written t !! "results_resunet/sample_2.png" = Some (2, 0)
  ∧ out_filename "results_resunet" 1 2 0 = out_filename "results_resunet" 0 4 2.
Proof. vm_compute. repeat split; reflexivity. Qed.

(** *** Runs that return, on the scripted instance *)

Lemma names_unique_equal_batches_witness :
  NoDup (written_paths (Scripted.evaluate [4; 4; 4]).1).
Proof.
  apply (names_unique_equal_batches (Optim:=Z) (Model:=Z) (Image:=Z * Z)
           (λ size, size) (λ _ _, 1%float) (λ _ _, 2%float)
           (λ _ size, 3%float) (λ size, size * 16) (λ _ size i, (size, i))
           0 [4; 4; 4] "results_resunet" 4).
  by repeat constructor.
Defined.

Lemma evaluate_writes_one_picture_per_sample_witness :
  let t := (Scripted.evaluate [4; 2]).1 in
  written_paths t
    = sample_names (λ size, size) "results_resunet" (enumerate [4; 2])
  ∧ Z.of_nat (length (written_paths t)) = samples (λ size, size) [4; 2].
Proof.
  apply (evaluate_writes_one_picture_per_sample (Optim:=Z) (Model:=Z) (Image:=Z * Z)
           (λ size, size) (λ _ _, 1%float) (λ _ _, 2%float)
           (λ _ size, 3%float) (λ size, size * 16) (λ _ size i, (size, i))
           0 [4; 2] "results_resunet" _ (VFloat 1, VFloat 2, VFloat 0.0625)).
  - by repeat constructor.
  - vm_compute. reflexivity.
Defined.

Lemma evaluate_equal_batches_one_file_per_sample_witness :
  Z.of_nat (size (written (Scripted.evaluate [4; 4]).1))
    = samples (λ size, size) [4; 4].
Proof.
  apply (evaluate_equal_batches_one_file_per_sample (Optim:=Z) (Model:=Z)
           (Image:=Z * Z)
           (λ size, size) (λ _ _, 1%float) (λ _ _, 2%float)
           (λ _ size, 3%float) (λ size, size * 16) (λ _ size i, (size, i))
           0 [4; 4] "results_resunet" 4 _ (VFloat 1, VFloat 2, VFloat 0.046875)).
  - done.
  - by repeat constructor.
  - vm_compute. reflexivity.
Defined.

Lemma evaluate_returns_floats_of_nonempty_run_witness :
  samples (λ size, size) [4; 2] ≠ 0 ∧ elements (λ size, size * 16) [4; 2] ≠ 0
  ∧ ∃ f1 f2 f3,
      (VFloat 1 : pyval Z Z) = VFloat f1 ∧ (VFloat 2 : pyval Z Z) = VFloat f2
      ∧ (VFloat 0.0625 : pyval Z Z) = VFloat f3.
Proof.
  apply (evaluate_returns_floats_of_nonempty_run (Optim:=Z) (Model:=Z)
           (Image:=Z * Z)
           (λ size, size) (λ _ _, 1%float) (λ _ _, 2%float)
           (λ _ size, 3%float) (λ size, size * 16) (λ _ size i, (size, i))
           0 [4; 2] "results_resunet" (Scripted.evaluate [4; 2]).1).
  vm_compute. reflexivity.
Defined.

End EvaluateFacts.

(** ** Facts about the file names *)

Module NamingFacts.
Import Py PyFacts EvaluateFacts.

Lemma digit_value_pretty (k : N) :
  (k < 10)%N → digit_value (pretty_N_char k) = k.
Proof.
  intros Hk.
  assert (k = 0 ∨ k = 1 ∨ k = 2 ∨ k = 3 ∨ k = 4 ∨ k = 5 ∨ k = 6 ∨ k = 7
          ∨ k = 8 ∨ k = 9)%N as Hcases by lia.
  repeat destruct Hcases as [->|Hcases]; try subst k; reflexivity.
Qed.

Lemma decimal_value_pretty_go (x : N) (s : string) :
  decimal_value (pretty_N_go x s)
    = (x * 10 ^ N.of_nat (String.length s) + decimal_value s)%N.
Proof.
  revert s. induction (N.lt_wf_0 x) as [x _ IH]; intros s.
  destruct (decide (x = 0)%N) as [->|Hx].
  - rewrite pretty_N_go_0. lia.
  - rewrite pretty_N_go_step by lia.
    rewrite IH by (apply N.div_lt; lia).
    cbn [decimal_value String.length].
    rewrite digit_value_pretty by (apply N.mod_lt; lia).
    rewrite Nat2N.inj_succ, N.pow_succ_r'.
    pose proof (N.div_mod x 10). nia.
Qed.

Lemma decimal_value_pretty_N (n : N) : decimal_value (pretty n) = n.
Proof.
  unfold pretty, pretty_N. destruct (decide (n = 0)%N) as [->|Hn]; [done|].
  rewrite decimal_value_pretty_go. cbn. lia.
Qed.

Lemma decimal_value_pretty_Z (z : Z) :
  0 ≤ z → decimal_value (pretty z) = Z.to_N z.
Proof.
  destruct z as [|p|p]; [done| |lia]. intros _.
  exact (decimal_value_pretty_N (N.pos p)).
Qed.

Lemma decimal_value_zeros (k : nat) (s : string) :
  decimal_value (zeros k +:+ s) = decimal_value s.
Proof.
  induction k as [|k IH]; [done|].
  cbn [zeros]. rewrite append_cons. cbn [decimal_value]. rewrite IH.
  change (digit_value "0") with 0%N. lia.
Qed.

(** [int("%04d" % z) == z] for a step counter. *)
Lemma decimal_value_fmt_04d (z : Z) :
  0 ≤ z → decimal_value (fmt_04d z) = Z.to_N z.
Proof.
  intros Hz. unfold fmt_04d, zfill.
  destruct (Z.ltb_spec z 0); [lia|].
  by rewrite decimal_value_zeros, decimal_value_pretty_Z.
Qed.

Lemma fmt_04d_inj (z1 z2 : Z) :
  0 ≤ z1 → 0 ≤ z2 → fmt_04d z1 = fmt_04d z2 → z1 = z2.
Proof.
  intros H1 H2 Heq. apply (f_equal decimal_value) in Heq.
  rewrite !decimal_value_fmt_04d in Heq by done. lia.
Qed.

Lemma append_assoc (a b c : string) : (a +:+ b) +:+ c = a +:+ b +:+ c.
Proof.
  induction a as [|x a IH]; [done|]. rewrite !append_cons. by rewrite IH.
Qed.

(** [os.path.join(a, b)] puts before [b] a prefix that depends on [a]
    and on the first character of [b] only. *)
Lemma path_join_prefix (a : string) (c : ascii) :
  ∃ p, ∀ rest, path_join a (String c rest) = p +:+ String c rest.
Proof.
  unfold path_join.
  destruct (decide (a = "")) as [->|Ha].
  { exists "". intros rest. by repeat case_match. }
  destruct (ends_with_slash a).
  - destruct (decide (c = "/"%char)) as [->|Hc].
    + by exists "".
    + exists a. intros rest. repeat case_match; try done; by subst.
  - destruct (decide (c = "/"%char)) as [->|Hc].
    + by exists "".
    + exists (a +:+ "/"). intros rest. rewrite append_assoc.
      repeat case_match; try done; by subst.
Qed.

Lemma path_join_nonempty (a b : string) : b ≠ "" → path_join a b ≠ "".
Proof.
  destruct b as [|c rest]; [done|]. intros _.
  destruct (path_join_prefix a c) as [p Hp]. rewrite Hp.
  destruct p; by rewrite ?append_cons.
Qed.

Lemma save_path_nonempty hp name step : Train.save_path hp name step ≠ "".
Proof.
  unfold Train.save_path. apply path_join_nonempty.
  destruct name; by rewrite ?append_cons.
Qed.

(** X8: within an experiment, the checkpoints of two different steps are
    saved in two different files. *)
Theorem save_path_inj hp name (step1 step2 : Z) :
  0 ≤ step1 → 0 ≤ step2 →
  Train.save_path hp name step1 = Train.save_path hp name step2 → step1 = step2.
Proof.
  intros H1 H2. unfold Train.save_path.
  set (dir := Train.checkpoint_dir hp name).
  destruct name as [|c name].
  - rewrite !append_nil, !append_cons.
    destruct (path_join_prefix dir "_") as [p Hp]. rewrite !Hp.
    intros Heq%String.app_inj. simplify_eq.
    by apply fmt_04d_inj, (append_inj_r _ _ ".pt").
  - rewrite !append_cons.
    destruct (path_join_prefix dir c) as [p Hp]. rewrite !Hp.
    intros Heq%String.app_inj. simplify_eq.
    by apply fmt_04d_inj, (append_inj_r _ _ ".pt").
Qed.

Lemma save_path_inj_witness :
  Train.save_path (Scripted.hp false 1) "exp" 40
    = "checkpoints/exp/exp_checkpoint_0040.pt"
  ∧ 40 = 40.
Proof.
  split; [reflexivity|].
  apply (save_path_inj (Scripted.hp false 1) "exp" 40 40); [lia|lia|reflexivity].
Defined.

End NamingFacts.

(** ** Saving and loading *)

Module RoundTripFacts.
Import Py PyFacts Train NamingFacts.

Section Driver.
Context {Model Optim Sched Batch Image : Type}.
Variables ResUnet ResUnetPlusPlus : Model.
Variable Adam : Model → float → Optim.
Variable ReduceLROnPlateau : Optim → Sched.
Variable train_batch : Model → Optim → Batch → Model * Optim.
Variable batch_loss : Model → Batch → float.
Variable batch_dice : Model → Batch → float.
Variable batch_rows : Batch → Z.
Variable tracker_avg : list (float * Z) → float.
Variable scheduler_step : Sched → Optim → float → Sched * Optim.

Local Abbreviation pyval := (pyval Model Optim).
Local Abbreviation pydict := (gmap string pyval).
Local Abbreviation main :=
  (main ResUnet ResUnetPlusPlus Adam ReduceLROnPlateau train_batch batch_loss
        batch_dice batch_rows tracker_avg scheduler_step).

End Driver.


End RoundTripFacts.
